(** * AgentForge: the base [Agent] of [agentforge/agent/agent.py]

    A shallow embedding of the module in Rocq and the properties of its
    five-stage pipeline (load data, generate prompt, run the LLM, parse the
    output, save the parsed data).

    Conventions of the embedding:
    - Python values are the inductive type [value]; a Python [dict] with
      string keys is an association list in insertion order ([dict]).
    - A raised exception is the [Err] case of [result]; stateful code lives
      in the monad [M], which threads the heap of shared mutable objects
      and the log of the calls made on the storage and LLM handles and of
      the identifiers drawn.
    - The collaborators (storage, LLM, configuration, [uuid]) and the parts
      of the Python runtime that are not written out ([str] of containers
      and handles, [int] of text, [str.strip]) are the fields of [Env].
    - Console output ([cprint], [_show_task]) and the [Logger] are
      presentation only and are left out: the log holds no event for
      them, nor for the reads of the configuration.
    - Strings are sequences of one-byte characters. *)

From Stdlib Require Import ZArith String Ascii List Lia Bool DecimalString.
From stdpp Require Import base list strings.

Open Scope Z_scope.
Open Scope string_scope.
Set Warnings "-register-all".

(** ** Python values *)

Inductive value : Type :=
| VNone
| VBool (b : bool)
| VInt (z : Z)
| VStr (s : string)
| VList (l : list value)
| VDict (d : list (string * value))
| VObj (h : nat).

(** A dict with string keys, in insertion order. *)
Definition dict : Type := list (string * value).

Fixpoint dict_get (k : string) (d : dict) : option value :=
  match d with
  | [] => None
  | (k', v) :: d' => if String.eqb k k' then Some v else dict_get k d'
  end.

Definition dict_mem (k : string) (d : dict) : bool :=
  match dict_get k d with Some _ => true | None => false end.

(** [d[k] = v]: an existing key keeps its position, a new one goes last. *)
Fixpoint dict_set (k : string) (v : value) (d : dict) : dict :=
  match d with
  | [] => [(k, v)]
  | (k', v') :: d' =>
      if String.eqb k k' then (k, v) :: d' else (k', v') :: dict_set k v d'
  end.

(** [d.update(d')]. *)
Definition dict_update (d d' : dict) : dict :=
  fold_left (fun acc kv => dict_set (fst kv) (snd kv) acc) d' d.

(** [d.pop(k)] on a key that is present (the value is dropped).  The keys
    of a dict are pairwise distinct; on a list that repeats [k], every
    occurrence goes, so that [k] is absent afterwards. *)
Fixpoint dict_pop (k : string) (d : dict) : dict :=
  match d with
  | [] => []
  | (k', v) :: d' =>
      if String.eqb k k' then dict_pop k d' else (k', v) :: dict_pop k d'
  end.

Definition dict_keys (d : dict) : list string := map fst d.

(** ** Exceptions and results *)

Inductive exn : Type :=
| KeyError (k : string)
| IndexError
| TypeError
| AttributeError
| ValueError
| Raised (tag : string)      (* an exception raised by a collaborator *)
| Unmodelled.                (* a format field outside the modelled syntax *)

Inductive result (A : Type) : Type :=
| Ok (a : A)
| Err (e : exn).
Arguments Ok {A} a.
Arguments Err {A} e.

Definition rbind {A B} (r : result A) (k : A -> result B) : result B :=
  match r with Ok a => k a | Err e => Err e end.

Declare Scope res_scope.
Delimit Scope res_scope with res.
Notation "'let?' x := r 'in' k" := (rbind r (fun x => k))
  (at level 10, x name, r at level 100, k at level 200) : res_scope.
Open Scope res_scope.

Fixpoint rmapM {A B} (f : A -> result B) (l : list A) : result (list B) :=
  match l with
  | [] => Ok []
  | a :: l' => let? b := f a in let? bs := rmapM f l' in Ok (b :: bs)
  end.

(** ** The part of the Python runtime the module uses *)

Definition py_truthy (v : value) : bool :=
  match v with
  | VNone => false
  | VBool b => b
  | VInt z => negb (Z.eqb z 0)
  | VStr s => negb (String.eqb s EmptyString)
  | VList l => match l with [] => false | _ => true end
  | VDict d => match d with [] => false | _ => true end
  | VObj _ => true
  end.

Definition is_none (v : value) : bool :=
  match v with VNone => true | _ => false end.

(** [v[k]] for a string key [k]. *)
Definition py_getitem (v : value) (k : string) : result value :=
  match v with
  | VDict d => match dict_get k d with Some x => Ok x | None => Err (KeyError k) end
  | _ => Err TypeError
  end.

(** [v[0]]. Keys of a [dict] are strings here, so [0] is never one. *)
Definition py_getitem0 (v : value) : result value :=
  match v with
  | VList l => match l with x :: _ => Ok x | [] => Err IndexError end
  | VStr s => match s with String c _ => Ok (VStr (String c EmptyString)) | EmptyString => Err IndexError end
  | VDict _ => Err (KeyError "0")
  | _ => Err TypeError
  end.

(** [v.get(k, default)]: only a dict has the method. *)
Definition py_get (v : value) (k : string) (default : value) : result value :=
  match v with
  | VDict d => Ok (match dict_get k d with Some x => x | None => default end)
  | _ => Err AttributeError
  end.

Definition str_is (k : string) (v : value) : bool :=
  match v with VStr s => String.eqb s k | _ => false end.

Fixpoint is_prefix (p s : string) : bool :=
  match p, s with
  | EmptyString, _ => true
  | String a p', String b s' => Ascii.eqb a b && is_prefix p' s'
  | String _ _, EmptyString => false
  end.

Fixpoint is_substring (p s : string) : bool :=
  is_prefix p s ||
  match s with
  | EmptyString => false
  | String _ s' => is_substring p s'
  end.

(** [k in v] for a string [k]. *)
Definition py_in (k : string) (v : value) : result bool :=
  match v with
  | VList l => Ok (existsb (str_is k) l)
  | VDict d => Ok (dict_mem k d)
  | VStr s => Ok (is_substring k s)
  | _ => Err TypeError
  end.

Fixpoint chars (s : string) : list value :=
  match s with
  | EmptyString => []
  | String c s' => VStr (String c EmptyString) :: chars s'
  end.

(** The elements a [for] loop over [v] visits. *)
Definition py_iter (v : value) : result (list value) :=
  match v with
  | VList l => Ok l
  | VDict d => Ok (map (fun kv => VStr (fst kv)) d)
  | VStr s => Ok (chars s)
  | _ => Err TypeError
  end.

Definition str_of_Z (z : Z) : string := NilZero.string_of_int (Z.to_int z).

(** ** Collaborators

    The storage handle, the LLM handle, the configuration module and
    [uuid] are code outside this module.  A call on a handle is an [event];
    what it returns (or raises) is decided by the environment from the
    calls made so far. *)

Inductive event : Type :=
| MethodCall (recv : nat) (meth : string) (args : list value) (kw : dict)
| Uuid4.

Record Env : Type := {
  (* what a method call on a handle answers, given the earlier calls *)
  respond : list event -> nat -> string -> list value -> dict -> result value;
  (* [str(uuid.uuid4())], given the earlier calls *)
  uuid4_str : list event -> string;
  (* [config.persona()] *)
  config_persona : value;
  (* [config.get_llm(api, agent_name)] *)
  config_get_llm : value -> string -> result value;
  (* [StorageInterface().storage_utils] *)
  storage_utils : value;
  (* [str(v)] of a list, a dict or a handle *)
  str_other : value -> string;
  (* [int(s)] of text: the number, or [None] for a [ValueError] *)
  int_of_str : string -> option Z;
  (* [s.strip()] *)
  str_strip : string -> string
}.

(** [str(v)], which is also [format(v, spec)] with an empty [spec], for
    these values. *)
Definition py_str (E : Env) (v : value) : string :=
  match v with
  | VNone => "None"
  | VBool true => "True"
  | VBool false => "False"
  | VInt z => str_of_Z z
  | VStr s => s
  | _ => str_other E v
  end.

(** [int(v)]. *)
Definition py_int (E : Env) (v : value) : result Z :=
  match v with
  | VInt z => Ok z
  | VBool b => Ok (if b then 1 else 0)
  | VStr s => match int_of_str E s with Some z => Ok z | None => Err ValueError end
  | _ => Err TypeError
  end.

(** ** [str.format] with keyword arguments only

    The modelled syntax: literal text, the escapes [{{] and [}}], and
    replacement fields [{name}].  A field whose name is empty or a number
    (digits 0-9) is positional, and there are no positional arguments: an
    [IndexError], as long as the number fits a machine index (up to 18
    digits).  A longer number, and a field with a conversion, a format
    specification, an attribute or an index, are outside the model
    ([Unmodelled]).  Fields are resolved left to right, as [str.format]
    does, so the first failure is the one reported. *)

Definition is_digit (c : ascii) : bool :=
  let n := nat_of_ascii c in (48 <=? n)%nat && (n <=? 57)%nat.

Fixpoint all_digits (s : string) : bool :=
  match s with
  | EmptyString => true
  | String c s' => is_digit c && all_digits s'
  end.

Fixpoint string_rev_onto (s acc : string) : string :=
  match s with
  | EmptyString => acc
  | String c s' => string_rev_onto s' (String c acc)
  end.

Definition string_rev (s : string) : string := string_rev_onto s EmptyString.

Definition format_field (E : Env) (name : string) (kw : dict) : result string :=
  if all_digits name then
    (if (String.length name <=? 18)%nat then Err IndexError else Err Unmodelled)
  else
    match dict_get name kw with
    | Some v => Ok (py_str E v)
    | None => Err (KeyError name)
    end.

Definition prepend (c : ascii) (r : result string) : result string :=
  let? s := r in Ok (String c s).

(** [format_text] reads literal text, [format_name] the name of a field
    ([name] holds the characters read so far, last one first). *)
Fixpoint format_text (E : Env) (kw : dict) (t : string) : result string :=
  match t with
  | EmptyString => Ok EmptyString
  | String c t' =>
      if Ascii.eqb c "{" then
        match t' with
        | EmptyString => Err ValueError
        | String c' t'' =>
            if Ascii.eqb c' "{" then prepend "{" (format_text E kw t'')
            else format_name E kw t' EmptyString
        end
      else if Ascii.eqb c "}" then
        match t' with
        | EmptyString => Err ValueError
        | String c' t'' =>
            if Ascii.eqb c' "}" then prepend "}" (format_text E kw t'')
            else Err ValueError
        end
      else prepend c (format_text E kw t')
  end
with format_name (E : Env) (kw : dict) (t : string) (name : string) : result string :=
  match t with
  | EmptyString => Err ValueError
  | String c t' =>
      if Ascii.eqb c "}" then
        let? s := format_field E (string_rev name) kw in
        let? rest := format_text E kw t' in
        Ok (s ++ rest)
      else if Ascii.eqb c "{" then Err ValueError
      else if Ascii.eqb c "[" || Ascii.eqb c "." || Ascii.eqb c ":" || Ascii.eqb c "!"
      then Err Unmodelled
      else format_name E kw t' (String c name)
  end.

(** ** State: the heap of shared objects and the log of calls *)

Record state : Type := { heap : list value; log : list event }.

Definition M (A : Type) : Type := state -> result A * state.

Definition ret {A} (a : A) : M A := fun st => (Ok a, st).

Definition raise {A} (e : exn) : M A := fun st => (Err e, st).

Definition bind {A B} (m : M A) (k : A -> M B) : M B :=
  fun st =>
    match m st with
    | (Ok a, st') => k a st'
    | (Err e, st') => (Err e, st')
    end.

Definition lift {A} (r : result A) : M A := fun st => (r, st).

Declare Scope m_scope.
Delimit Scope m_scope with M.
Notation "'let*' x := m 'in' k" := (bind m (fun x => k))
  (at level 10, x name, m at level 100, k at level 200) : m_scope.
Open Scope m_scope.

Fixpoint mapM {A B} (f : A -> M B) (l : list A) : M (list B) :=
  match l with
  | [] => ret []
  | a :: l' => let* b := f a in let* bs := mapM f l' in ret (b :: bs)
  end.

(** A cell that does not exist reads as [None]. *)
Definition read (l : nat) : M value :=
  fun st => (Ok (default VNone (heap st !! l)), st).

Definition write (l : nat) (v : value) : M unit :=
  fun st => (Ok tt, {| heap := <[l := v]> (heap st); log := log st |}).

Definition get_heap : M (list value) := fun st => (Ok (heap st), st).

Definition alloc (v : value) : M nat :=
  fun st => (Ok (length (heap st)), {| heap := (heap st ++ [v])%list; log := log st |}).

(** [recv.meth( *args, **kw )] on a collaborator's handle. *)
Definition call_method (E : Env) (recv : value) (meth : string)
    (args : list value) (kw : dict) : M value :=
  match recv with
  | VObj h =>
      fun st =>
        (respond E (log st) h meth args kw,
         {| heap := heap st; log := (log st ++ [MethodCall h meth args kw])%list |})
  | _ => raise AttributeError
  end.

(** [str(uuid.uuid4())]. *)
Definition uuid4 (E : Env) : M string :=
  fun st => (Ok (uuid4_str E (log st)),
             {| heap := heap st; log := (log st ++ [Uuid4])%list |}).

(** ** The agent

    [self.agent_data] is a dict whose ['prompts'] entry refers to the
    persona's prompt mapping, an object shared with whoever else holds it:
    that entry is a reference into the heap, the others are plain values. *)

Inductive entry : Type :=
| Val (v : value)
| Ref (l : nat).

Record Agent : Type := {
  agent_data : list (string * entry);
  storage : value
}.

Fixpoint entry_get (k : string) (d : list (string * entry)) : option entry :=
  match d with
  | [] => None
  | (k', e) :: d' => if String.eqb k k' then Some e else entry_get k d'
  end.

(** The value an entry stands for in the heap [h]. *)
Definition entry_value (h : list value) (e : entry) : value :=
  match e with
  | Val v => v
  | Ref l => default VNone (h !! l)
  end.

(** The items of [self.agent_data], as [dict.update] reads them. *)
Definition agent_items (h : list value) (d : list (string * entry)) : dict :=
  map (fun ke => (fst ke, entry_value h (snd ke))) d.

(** ** Module-level functions *)

Definition _calculate_next_task_order (E : Env) (this_task_order : value) : result Z :=
  let? n := py_int E this_task_order in Ok (n + 1).

(** The loaders of this module return a dict, or [None]. *)
Definition _get_data (key : string) (loader : M (option dict)) (kwargs data : dict)
    (invert_logic : bool) : M dict :=
  if (negb (dict_mem key kwargs) && negb invert_logic)
     || (dict_mem key kwargs && invert_logic)
  then
    let* db_data := loader in
    match db_data with
    | Some d => ret (dict_update data d)
    | None => ret data
    end
  else ret data.

Definition _handle_prompt_type (prompts : value) (prompt_type : string)
    : result (list (value * value)) :=
  let? prompt_data := py_get prompts prompt_type (VDict []) in
  if py_truthy prompt_data then
    let? t := py_getitem prompt_data "template" in
    let? vs := py_getitem prompt_data "vars" in
    Ok [(t, vs)]
  else Ok [].

(** [agent.get(k, default)]: the receiver's method is looked up before the
    default is evaluated. *)
Definition py_get_lazy (v : value) (k : string) (default : result value) : result value :=
  match v with
  | VDict d =>
      let? x := default in
      Ok (match dict_get k d with Some y => y | None => x end)
  | _ => Err AttributeError
  end.

Definition _load_agent_data (E : Env) (agent_name : string) : M (list (string * entry)) :=
  let persona_data := config_persona E in
  let* agent := lift (py_getitem persona_data agent_name) in
  let* defaults := lift (py_getitem persona_data "Defaults") in
  let* api := lift (py_get_lazy agent "API" (py_getitem defaults "API")) in
  let* params := lift (py_get_lazy agent "Params" (py_getitem defaults "Params")) in
  let* llm := lift (config_get_llm E api agent_name) in
  let* objective := lift (py_getitem persona_data "Objective") in
  let* prompts_v := lift (py_getitem agent "Prompts") in
  let* prompts := alloc prompts_v in
  let agent_data :=
    [("name", Val (VStr agent_name)); ("llm", Val llm); ("objective", Val objective);
     ("prompts", Ref prompts); ("params", Val params);
     ("storage", Val (storage_utils E))] in
  let* has := lift (py_in "HeuristicImperatives" persona_data) in
  if has then
    let* imperatives := lift (py_getitem persona_data "HeuristicImperatives") in
    ret (agent_data ++ [("heuristic_imperatives", Val imperatives)])%list
  else ret agent_data.

(** [prompts] is the location of the mapping the caller passes in. *)
Definition remove_prompt_if_none (prompts : nat) (kwargs : dict)
    (prompt_type kwarg_key : string) : M unit :=
  let* p := read prompts in
  let* g := lift (py_get p prompt_type VNone) in
  if py_truthy g && is_none (default VNone (dict_get kwarg_key kwargs)) then
    match p with
    | VDict d => write prompts (VDict (dict_pop prompt_type d))
    | _ => raise AttributeError
    end
  else ret tt.

(** [{k: v for k, v in data.items() if k in variables}]. *)
Fixpoint select_items (variables : value) (data : dict) : result dict :=
  match data with
  | [] => Ok []
  | (k, v) :: data' =>
      let? b := py_in k variables in
      let? rest := select_items variables data' in
      Ok (if b then (k, v) :: rest else rest)
  end.

Definition _render_template (E : Env) (template variables : value) (data : dict)
    : result string :=
  match template with
  | VStr t =>
      let? kw := select_items variables data in
      format_text E kw t
  | _ => Err AttributeError
  end.

Definition _set_task_order (E : Env) (data : dict) : result dict :=
  let task_order := default VNone (dict_get "this_task_order" data) in
  if negb (is_none task_order) then
    let? n := _calculate_next_task_order E task_order in
    Ok (dict_set "next_task_order" (VInt n) data)
  else Ok data.

(** ** The methods of [Agent] *)

(** [Agent.__init__]; the logger is left out. *)
Definition Agent_init (E : Env) (agent_name : string) : M Agent :=
  let* ad := _load_agent_data E agent_name in
  match entry_get "storage" ad with
  | Some e =>
      let* h := get_heap in
      ret {| agent_data := ad; storage := entry_value h e |}
  | None => raise (KeyError "storage")
  end.

(** [self.agent_data[k]]. *)
Definition agent_data_getitem (self : Agent) (k : string) : M value :=
  match entry_get k (agent_data self) with
  | Some (Val v) => ret v
  | Some (Ref l) => read l
  | None => raise (KeyError k)
  end.

(** [v.copy()]: dicts and lists have the method. *)
Definition py_copy (v : value) : result value :=
  match v with
  | VDict d => Ok (VDict d)
  | VList l => Ok (VList l)
  | _ => Err AttributeError
  end.

(** The loop [for prompt_type in [...]: templates.extend(...)]. *)
Fixpoint extend_templates (prompts : nat) (prompt_types : list string)
    (templates : list (value * value)) : M (list (value * value)) :=
  match prompt_types with
  | [] => ret templates
  | prompt_type :: rest =>
      let* p := read prompts in
      let* more := lift (_handle_prompt_type p prompt_type) in
      extend_templates prompts rest (templates ++ more)%list
  end.

Definition generate_prompt (E : Env) (self : Agent) (kwargs : dict) : M (list string) :=
  let* shared := agent_data_getitem self "prompts" in
  let* copied := lift (py_copy shared) in
  let* prompts := alloc copied in
  let* p := read prompts in
  let* system_prompt := lift (py_getitem p "SystemPrompt") in
  let* t := lift (py_getitem system_prompt "template") in
  let* vs := lift (py_getitem system_prompt "vars") in
  let templates := [(t, vs)] in
  let* _ := remove_prompt_if_none prompts kwargs "ContextPrompt" "context" in
  let* _ := remove_prompt_if_none prompts kwargs "FeedbackPrompt" "feedback" in
  let* templates :=
    extend_templates prompts ["ContextPrompt"; "FeedbackPrompt"; "InstructionPrompt"]
      templates in
  lift (rmapM (fun tv => _render_template E (fst tv) (snd tv) kwargs) templates).

Definition get_task_list (E : Env) (self : Agent) : M value :=
  call_method E (storage self) "load_collection"
    [VDict [("collection_name", VStr "Tasks");
            ("include", VList [VStr "documents"; VStr "metadatas"])]] [].

Definition load_current_task (E : Env) (self : Agent) : M (option dict) :=
  let* task_list := get_task_list E self in
  let* documents := lift (py_getitem task_list "documents") in
  let* task := lift (py_getitem0 documents) in
  ret (Some [("task", task)]).

(** [load_result_data]; the logger is left out. *)
Definition load_result_data (E : Env) (self : Agent) : M value :=
  let* result_collection :=
    call_method E (storage self) "load_collection"
      [VDict [("collection_name", VStr "Results");
              ("include", VList [VStr "documents"])]] [] in
  if py_truthy result_collection
  then lift (py_getitem0 result_collection)
  else ret (VList [VStr "No results found"]).

(** [kwargs.get(k) or {}]. *)
Definition get_or_empty (k : string) (kwargs : dict) : value :=
  let v := default VNone (dict_get k kwargs) in
  if py_truthy v then v else VDict [].

Definition load_and_process_data (E : Env) (self : Agent) (kwargs : dict) : M dict :=
  let context_data := get_or_empty "context" kwargs in
  let* context := lift (py_get context_data "result" VNone) in
  let task_result_data := get_or_empty "task_result" kwargs in
  let* task_result := lift (py_get task_result_data "result" VNone) in
  let* h := get_heap in
  let data := dict_update (dict_update [] (agent_items h (agent_data self))) kwargs in
  let* data := _get_data "task" (load_current_task E self) kwargs data false in
  let* data := _get_data "task_result" (ret (Some [("result", task_result)]))
                 kwargs data true in
  let data := dict_update data [("context", context)] in
  let* data := lift (_set_task_order E data) in
  ret data.

(** The base class ignores [bot_id] and [data]. *)
Definition parse_output (result_ : value) (bot_id : value) (data : dict) : value :=
  VDict [("result", result_)].

Definition run_llm (E : Env) (self : Agent) (prompt : value) : M value :=
  let* model := agent_data_getitem self "llm" in
  let* params :=
    match entry_get "params" (agent_data self) with
    | Some (Val v) => ret v
    | Some (Ref l) => read l
    | None => ret (VDict [])
    end in
  match model with
  | VObj _ =>
      match params with
      | VDict kw =>
          let* text := call_method E model "generate_text" [prompt] kw in
          match text with
          | VStr s => ret (VStr (str_strip E s))
          | _ => raise AttributeError
          end
      | _ => raise TypeError
      end
  | _ => raise AttributeError
  end.

Definition save_results (E : Env) (self : Agent) (result_ : value)
    (collection_name : string) : M value :=
  call_method E (storage self) "save_memory"
    [VDict [("data", VList [result_]); ("collection_name", VStr collection_name)]] [].

Definition save_status (E : Env) (self : Agent) (status task_id text task_order : value)
    : M value :=
  let params :=
    VDict [("collection_name", VStr "Tasks");
           ("ids", VList [task_id]);
           ("data", VList [text]);
           ("metadata", VList [VDict [("Status", status);
                                      ("Description", text);
                                      ("Order", task_order)]])] in
  call_method E (storage self) "update_memory" [params] [].

(** One element of the [metadatas] comprehension. *)
Definition task_metadata (E : Env) (task : value) : M value :=
  let* description := lift (py_getitem task "Description") in
  let* list_id := uuid4 E in
  let* order := lift (py_getitem task "Order") in
  ret (VDict [("Status", VStr "not completed");
              ("Description", description);
              ("List_ID", VStr list_id);
              ("Order", order)]).

Definition save_tasks (E : Env) (self : Agent) (ordered_results task_desc_list : value)
    : M value :=
  let collection_name := "Tasks" in
  let* _ := call_method E (storage self) "clear_collection" [VStr collection_name] [] in
  let* tasks := lift (py_iter ordered_results) in
  let* metadatas := mapM (task_metadata E) tasks in
  let* tasks' := lift (py_iter ordered_results) in
  let* task_orders := lift (rmapM (fun task => py_getitem task "Order") tasks') in
  let params :=
    VDict [("collection_name", VStr collection_name);
           ("ids", VList (map (fun order => VStr (py_str E order)) task_orders));
           ("data", task_desc_list);
           ("metadata", VList metadatas)] in
  call_method E (storage self) "save_memory" [params] [].

(** The three entries of [save_operations], in the order of the dict
    literal: the save function and the selector of the output. *)
Definition save_operations (E : Env) (self : Agent) (parsed_data : value)
    : list (string * ((value -> M value) * (value -> result value))) :=
  [("result",
     (fun result_ => save_results E self result_ "Results",
      fun data => Ok data));
   ("Tasks",
     (fun tasks =>
        let* ts := lift (py_iter tasks) in
        let* descs := lift (rmapM (fun task => py_getitem task "Description") ts) in
        save_tasks E self tasks (VList descs),
      fun data => py_getitem data "Tasks"));
   ("status",
     (fun status =>
        let* task := lift (py_getitem parsed_data "task") in
        let* task_id := lift (py_getitem task "task_id") in
        let* task' := lift (py_getitem parsed_data "task") in
        let* description := lift (py_getitem task' "description") in
        let* task'' := lift (py_getitem parsed_data "task") in
        let* order := lift (py_getitem task'' "order") in
        save_status E self status task_id description order,
      fun data => Ok data))].

Fixpoint save_loop (ops : list (string * ((value -> M value) * (value -> result value))))
    (parsed_data output : value) : M value :=
  match ops with
  | [] => ret output
  | (key, (save_function, data_selector)) :: rest =>
      let* present := lift (py_in key parsed_data) in
      if present then
        let* arg := lift (py_getitem parsed_data key) in
        let* _ := save_function arg in
        let* output' := lift (data_selector parsed_data) in
        save_loop rest parsed_data output'
      else save_loop rest parsed_data output
  end.

Definition save_parsed_data (E : Env) (self : Agent) (parsed_data : value) : M value :=
  save_loop (save_operations E self parsed_data) parsed_data VNone.

Definition run (E : Env) (self : Agent) (bot_id : value) (kwargs : dict) : M value :=
  let* data := load_and_process_data E self kwargs in
  let* prompts := generate_prompt E self data in
  let* result_ := run_llm E self (VList (map VStr prompts)) in
  let parsed_data := parse_output result_ bot_id data in
  let* output := save_parsed_data E self parsed_data in
  ret output.

(** * Vocabulary of the properties *)

(** ** Well-formed inputs *)

(** The keys of a dict are pairwise distinct. *)
Definition dict_wf (d : dict) : Prop := NoDup (dict_keys d).

(** ** A concrete environment *)

(** The environment of the examples: the storage and the LLM are
    the handles [VObj 1] and [VObj 0]; every call answers [None], except
    that the LLM answers [" 42 "]; the identifier drawn after n calls is
    the text of n. *)
Definition example_persona : value :=
  VDict [("Objective", VStr "Ship it");
         ("Defaults", VDict [("API", VStr "stub"); ("Params", VDict [])]);
         ("Agent",
          VDict [("Prompts",
                  VDict [("SystemPrompt",
                          VDict [("template", VStr "Do: {task}");
                                 ("vars", VList [VStr "task"])]);
                         ("ContextPrompt",
                          VDict [("template", VStr "Context: {context}");
                                 ("vars", VList [VStr "context"])])])])].

Definition example_env : Env :=
  {| respond := fun _ _ meth _ _ =>
       if String.eqb meth "generate_text" then Ok (VStr " 42 ") else Ok VNone;
     uuid4_str := fun lg => str_of_Z (Z.of_nat (length lg));
     config_persona := example_persona;
     config_get_llm := fun _ _ => Ok (VObj 0);
     storage_utils := VObj 1;
     str_other := fun _ => "<object>";
     int_of_str := fun _ => None;
     str_strip := fun s => s |}.

Definition example_agent : Agent :=
  {| agent_data :=
       [("name", Val (VStr "Agent")); ("llm", Val (VObj 0));
        ("objective", Val (VStr "Ship it")); ("prompts", Ref 0);
        ("params", Val (VDict [])); ("storage", Val (VObj 1))];
     storage := VObj 1 |}.

Definition example_state : state :=
  {| heap :=
       [VDict [("SystemPrompt",
                VDict [("template", VStr "Do: {task}");
                       ("vars", VList [VStr "task"])]);
               ("ContextPrompt",
                VDict [("template", VStr "Context: {context}");
                       ("vars", VList [VStr "context"])])]];
     log := [] |}.

Definition empty_state : state := {| heap := []; log := [] |}.

(** ** Loading and running *)

(** The overlay [load_and_process_data] starts from. *)
Definition overlay (h : list value) (self : Agent) (kwargs : dict) : dict :=
  dict_update (dict_update [] (agent_items h (agent_data self))) kwargs.

(** The fields of AgentData. *)
Definition agent_keys : list string :=
  ["name"; "llm"; "objective"; "prompts"; "params"; "storage"; "heuristic_imperatives"].

(** An [agent_data] as the constructor builds it: the keys are distinct
    and among the fields of AgentData. *)
Definition agent_data_wf (ad : list (string * entry)) : Prop :=
  NoDup (map fst ad) /\ Forall (fun k => k ∈ agent_keys) (map fst ad).

(** [kwargs.get(k)] is absent, falsy or a mapping: what the function
    expects of [context] and [task_result]. *)
Definition mapping_or_empty (k : string) (kwargs : dict) : bool :=
  match dict_get k kwargs with
  | None => true
  | Some v => negb (py_truthy v) || match v with VDict _ => true | _ => false end
  end.

(** A call of the LLM's [generate_text]. *)
Definition is_generate_text (ev : event) : bool :=
  match ev with
  | MethodCall _ meth _ _ => String.eqb meth "generate_text"
  | Uuid4 => false
  end.

(** The request [get_task_list] sends to the storage. *)
Definition tasks_request : list value :=
  [VDict [("collection_name", VStr "Tasks");
          ("include", VList [VStr "documents"; VStr "metadatas"])]].

(** The storage of this environment has an empty "Tasks" collection. *)
Definition empty_tasks_env : Env :=
  {| respond := fun _ _ meth _ _ =>
       if String.eqb meth "load_collection"
       then Ok (VDict [("documents", VList []); ("metadatas", VList [])])
       else Ok (VStr "42");
     uuid4_str := uuid4_str example_env;
     config_persona := example_persona;
     config_get_llm := config_get_llm example_env;
     storage_utils := VObj 1;
     str_other := str_other example_env;
     int_of_str := int_of_str example_env;
     str_strip := str_strip example_env |}.

(** ** Saving *)

(** A task record: a mapping with a ["Description"] and an ["Order"]. *)
Definition is_task_record (t : value) : bool :=
  match t with
  | VDict td => dict_mem "Description" td && dict_mem "Order" td
  | _ => false
  end.

(** The field [k] of a record ([None] when there is none). *)
Definition task_field (k : string) (t : value) : value :=
  match t with
  | VDict td => default VNone (dict_get k td)
  | _ => VNone
  end.

(** The identifiers of [n] successive draws made after the calls [lg]. *)
Definition drawn_ids (E : Env) (lg : list event) (n : nat) : list string :=
  map (fun i => uuid4_str E (lg ++ repeat Uuid4 i)%list) (seq 0 n).

(** The metadata record of a task whose identifier is [list_id]. *)
Definition metadata_of (task : value) (list_id : string) : value :=
  VDict [("Status", VStr "not completed");
         ("Description", task_field "Description" task);
         ("List_ID", VStr list_id);
         ("Order", task_field "Order" task)].

(** What [save_tasks] hands to [save_memory]. *)
Definition tasks_params (E : Env) (lg : list event) (tasks : list value)
    (task_desc_list : value) : value :=
  VDict [("collection_name", VStr "Tasks");
         ("ids", VList (map (fun t => VStr (py_str E (task_field "Order" t))) tasks));
         ("data", task_desc_list);
         ("metadata",
          VList (zip_with metadata_of tasks (drawn_ids E lg (length tasks))))].

(** The call that clears the "Tasks" collection. *)
Definition clear_tasks_call (h : nat) : event :=
  MethodCall h "clear_collection" [VStr "Tasks"] [].

(** Every call on the storage handle [h] returns. *)
Definition storage_returns (E : Env) (h : nat) : Prop :=
  forall lg meth args kw, exists v, respond E lg h meth args kw = Ok v.

(** The matching branches can run: ["Tasks"] holds a list of task
    records, and ["status"] comes with a ["task"] record that has a
    [task_id], a [description] and an [order]. *)
Definition branches_well_formed (d : dict) : bool :=
  (if dict_mem "Tasks" d then
     match dict_get "Tasks" d with
     | Some (VList ts) => forallb is_task_record ts
     | _ => false
     end
   else true) &&
  (if dict_mem "status" d then
     match dict_get "task" d with
     | Some (VDict t) =>
         dict_mem "task_id" t && dict_mem "description" t && dict_mem "order" t
     | _ => false
     end
   else true).

(** The selector of the last key of ["result"], ["Tasks"], ["status"]
    that the mapping holds. *)
Definition last_selected (d : dict) : value :=
  if dict_mem "status" d then VDict d
  else if dict_mem "Tasks" d then default VNone (dict_get "Tasks" d)
  else if dict_mem "result" d then VDict d
  else VNone.

(** The state [st] after the calls [evs]. *)
Definition log_append (st : state) (evs : list event) : state :=
  {| heap := heap st; log := (log st ++ evs)%list |}.

(** The state after the ["result"] branch: one [save_memory] call. *)
Definition after_result (h : nat) (d : dict) (st : state) : state :=
  if dict_mem "result" d then
    log_append st
      [MethodCall h "save_memory"
         [VDict [("data", VList [default VNone (dict_get "result" d)]);
                 ("collection_name", VStr "Results")]] []]
  else st.

(** The state after the ["Tasks"] branch: the calls of [save_tasks]. *)
Definition after_tasks (E : Env) (h : nat) (d : dict) (st : state) : state :=
  if dict_mem "Tasks" d then
    match dict_get "Tasks" d with
    | Some (VList ts) =>
        log_append st
          ([clear_tasks_call h] ++ repeat Uuid4 (length ts) ++
           [MethodCall h "save_memory"
              [tasks_params E (log st ++ [clear_tasks_call h])%list ts
                 (VList (map (task_field "Description") ts))] []])
    | _ => st
    end
  else st.

(** The state after the ["status"] branch: one [update_memory] call. *)
Definition after_status (h : nat) (d : dict) (st : state) : state :=
  if dict_mem "status" d then
    let task := default VNone (dict_get "task" d) in
    log_append st
      [MethodCall h "update_memory"
         [VDict [("collection_name", VStr "Tasks");
                 ("ids", VList [task_field "task_id" task]);
                 ("data", VList [task_field "description" task]);
                 ("metadata",
                  VList [VDict [("Status", default VNone (dict_get "status" d));
                                ("Description", task_field "description" task);
                                ("Order", task_field "order" task)]])]] []]
  else st.

(** ** Rendering *)

(** Literal text: no brace. *)
Fixpoint plain_text (s : string) : bool :=
  match s with
  | EmptyString => true
  | String c s' => negb (Ascii.eqb c "{") && negb (Ascii.eqb c "}") && plain_text s'
  end.

(** No brace and none of the characters [[], [.], [:], [!]. *)
Fixpoint name_chars (s : string) : bool :=
  match s with
  | EmptyString => true
  | String c s' =>
      negb (Ascii.eqb c "{") && negb (Ascii.eqb c "}") &&
      negb (Ascii.eqb c "[" || Ascii.eqb c "." || Ascii.eqb c ":" || Ascii.eqb c "!")
      && name_chars s'
  end.

(** The name of a keyword field: not a number, no brace and none of the
    characters that start an index, an attribute, a format specification
    or a conversion. *)
Definition plain_name (s : string) : bool :=
  name_chars s && negb (all_digits s).

(** The declared variables, as the list the persona gives. *)
Definition var_list (vars : list string) : value := VList (map VStr vars).

(** [name] is one of the declared variables. *)
Definition declared (name : string) (vars : list string) : bool :=
  existsb (fun s => String.eqb s name) vars.

(** A template cut into its segments: literal text and fields. *)
Inductive segment : Type :=
| Lit (s : string)
| Field (name : string).

(** The text of a template: a field [name] is written [{name}]. *)
Fixpoint template_text (segs : list segment) : string :=
  match segs with
  | [] => EmptyString
  | Lit s :: rest => s ++ template_text rest
  | Field name :: rest => "{" ++ name ++ "}" ++ template_text rest
  end.

(** Literal text has no brace; a field has a keyword name. *)
Definition segment_ok (seg : segment) : bool :=
  match seg with
  | Lit s => plain_text s
  | Field name => plain_name name
  end.

(** The RunContext value a field can use: the name has to be declared in
    [vars] and present in the RunContext. *)
Definition bound (vars : list string) (data : dict) (name : string) : option value :=
  if declared name vars then dict_get name data else None.

(** The substitution, segment by segment, stopping at the first field
    with no value. *)
Fixpoint substitute (E : Env) (vars : list string) (data : dict)
    (segs : list segment) : result string :=
  match segs with
  | [] => Ok EmptyString
  | Lit s :: rest =>
      let? r := substitute E vars data rest in Ok (s ++ r)
  | Field name :: rest =>
      match bound vars data name with
      | Some v => let? r := substitute E vars data rest in Ok (py_str E v ++ r)
      | None => Err (KeyError name)
      end
  end.

(** ** Prompt generation *)

(** The heap [h] followed by the copy [x] of the prompt mapping, which
    lives at location [length h]. *)
Definition with_copy (h : list value) (lg : list event) (x : dict) : state :=
  {| heap := (h ++ [VDict x])%list; log := lg |}.

(** What [remove_prompt_if_none] leaves of the mapping [x]. *)
Definition dropped (kwargs : dict) (prompt_type kwarg_key : string) (x : dict) : dict :=
  if py_truthy (default VNone (dict_get prompt_type x))
     && is_none (default VNone (dict_get kwarg_key kwargs))
  then dict_pop prompt_type x else x.

(** The loop of [extend_templates] on a mapping that no longer changes. *)
Fixpoint extend_pure (p : value) (prompt_types : list string)
    (templates : list (value * value)) : result (list (value * value)) :=
  match prompt_types with
  | [] => Ok templates
  | prompt_type :: rest =>
      let? more := _handle_prompt_type p prompt_type in
      extend_pure p rest (templates ++ more)%list
  end.

(** The result of [generate_prompt] as a function of the prompt mapping
    [d] and the keyword arguments. *)
Definition generate_prompt_view (E : Env) (d kwargs : dict) : result (list string) :=
  let? system_prompt := py_getitem (VDict d) "SystemPrompt" in
  let? t := py_getitem system_prompt "template" in
  let? vs := py_getitem system_prompt "vars" in
  let d' := dropped kwargs "FeedbackPrompt" "feedback"
              (dropped kwargs "ContextPrompt" "context" d) in
  let? templates :=
    extend_pure (VDict d') ["ContextPrompt"; "FeedbackPrompt"; "InstructionPrompt"]
      [(t, vs)] in
  rmapM (fun tv => _render_template E (fst tv) (snd tv) kwargs) templates.

(** The caller supplied a value for [k]: present and not [None]. *)
Definition supplied (k : string) (kwargs : dict) : bool :=
  negb (is_none (default VNone (dict_get k kwargs))).

(** The entry of an optional prompt type, when it is defined (truthy) and
    [keep] holds. *)
Definition kept (d : dict) (prompt_type : string) (keep : bool) : list value :=
  match dict_get prompt_type d with
  | Some e => if py_truthy e && keep then [e] else []
  | None => []
  end.

(** The (template, vars) pair of a prompt entry. *)
Definition entry_pair (e : value) : result (value * value) :=
  let? t := py_getitem e "template" in
  let? vs := py_getitem e "vars" in
  Ok (t, vs).

(** Rendering one prompt entry [{template, vars}]. *)
Definition render_entry (E : Env) (kwargs : dict) (e : value) : result string :=
  let? tv := entry_pair e in
  _render_template E (fst tv) (snd tv) kwargs.

(** The optional entries that survive, in the order of the loop. *)
Definition surviving (d kwargs : dict) : list value :=
  (kept d "ContextPrompt" (supplied "context" kwargs) ++
   kept d "FeedbackPrompt" (supplied "feedback" kwargs) ++
   kept d "InstructionPrompt" true)%list.

(** ** Further vocabulary *)

(** The entries [_load_agent_data] builds from the agent's persona [a],
    the defaults, the LLM handle, the objective and the location of the
    prompt mapping. *)
Definition built_agent_data (E : Env) (agent_name : string) (a : dict)
    (dparams llm objective : value) (prompts : nat) : list (string * entry) :=
  [("name", Val (VStr agent_name)); ("llm", Val llm); ("objective", Val objective);
   ("prompts", Ref prompts);
   ("params", Val (default dparams (dict_get "Params" a)));
   ("storage", Val (storage_utils E))].

(** The optional last entry of [agent_data]. *)
Definition imperatives_entry (p : dict) : list (string * entry) :=
  match dict_get "HeuristicImperatives" p with
  | Some v => [("heuristic_imperatives", Val v)]
  | None => []
  end.

(** An environment whose [Defaults] lack [API], with an agent that has
    its own. *)
Definition no_default_api_env : Env :=
  {| respond := respond example_env;
     uuid4_str := uuid4_str example_env;
     config_persona :=
       VDict [("Defaults", VDict [("Params", VDict [])]);
              ("Agent", VDict [("API", VStr "own"); ("Params", VDict [])])];
     config_get_llm := config_get_llm example_env;
     storage_utils := VObj 1;
     str_other := str_other example_env;
     int_of_str := int_of_str example_env;
     str_strip := str_strip example_env |}.

(** The [result] field of the mapping passed as [k], or [None] when [k]
    is absent, falsy or a mapping without the field. *)
Definition result_field (k : string) (kwargs : dict) : value :=
  match dict_get k kwargs with
  | Some (VDict m) => default VNone (dict_get "result" m)
  | _ => VNone
  end.

(** The call [load_result_data] makes. *)
Definition results_request : list value :=
  [VDict [("collection_name", VStr "Results");
          ("include", VList [VStr "documents"])]].

(** An environment whose "Tasks" collection holds two documents. *)
Definition two_tasks_env : Env :=
  {| respond := fun _ _ meth _ _ =>
       if String.eqb meth "load_collection"
       then Ok (VDict [("documents", VList [VStr "first"; VStr "second"])])
       else Ok (VStr " 42 ");
     uuid4_str := uuid4_str example_env;
     config_persona := example_persona;
     config_get_llm := config_get_llm example_env;
     storage_utils := VObj 1;
     str_other := str_other example_env;
     int_of_str := int_of_str example_env;
     str_strip := str_strip example_env |}.

(** [kwargs] passes as [k] something truthy that is not a mapping. *)
Definition non_mapping (k : string) (kwargs : dict) : bool :=
  match dict_get k kwargs with
  | Some v => py_truthy v && match v with VDict _ => false | _ => true end
  | None => false
  end.

(** A computation that makes no call: the log is as before. *)
Definition quiet {A} (m : M A) : Prop :=
  forall st r st', m st = (r, st') -> log st' = log st.

(** A heap whose prompt mapping has no SystemPrompt. *)
Definition no_system_state : state :=
  {| heap := [VDict [("InstructionPrompt",
                      VDict [("template", VStr "Go"); ("vars", VList [])])]];
     log := [] |}.

(** The record [t] is a mapping with the field [k]. *)
Definition has_field (k : string) (t : value) : bool :=
  match t with
  | VDict td => dict_mem k td
  | _ => false
  end.

(** The keyword arguments [run_llm] passes: the ["params"] of the agent
    data, or none when the entry is missing. *)
Definition llm_params (self : Agent) (kw : dict) : Prop :=
  match entry_get "params" (agent_data self) with
  | Some (Val (VDict d)) => kw = d
  | None => kw = []
  | _ => False
  end.

(** What [run_llm] makes of the answer of [generate_text]. *)
Definition stripped_answer (E : Env) (answer : result value) : result value :=
  match answer with
  | Ok (VStr s) => Ok (VStr (str_strip E s))
  | Ok _ => Err AttributeError
  | Err e => Err e
  end.

(** The [load_collection] call for the "Tasks" collection. *)
Definition is_load_tasks (ev : event) : bool :=
  match ev with
  | MethodCall _ meth args kw =>
      String.eqb meth "load_collection" &&
      match args, kw with
      | [VDict [("collection_name", VStr c); _]], [] => String.eqb c "Tasks"
      | _, _ => false
      end
  | Uuid4 => false
  end.

(** The [save_memory] call that adds [x] to the "Results" collection. *)
Definition save_result_call (h : nat) (x : value) : event :=
  MethodCall h "save_memory"
    [VDict [("data", VList [x]); ("collection_name", VStr "Results")]] [].

(** No event, or one event of the kind [P]. *)
Definition at_most_one (P : event -> Prop) (l : list event) : Prop :=
  l = [] \/ exists ev, l = [ev] /\ P ev.

(** The methods of the storage and of the LLM that the module calls. *)
Definition api_methods : list string :=
  ["load_collection"; "save_memory"; "update_memory"; "clear_collection";
   "generate_text"].

(** A call of one of these methods, or an identifier drawn. *)
Definition is_api_event (ev : event) : bool :=
  match ev with
  | MethodCall _ meth _ _ => existsb (String.eqb meth) api_methods
  | Uuid4 => true
  end.

(** The storage and LLM calls and the identifier draws of a log. *)
Definition storage_llm_events (lg : list event) : list event :=
  List.filter is_api_event lg.

(** * Properties *)

(** ** Dicts *)

Lemma dict_get_set_eq k v d : dict_get k (dict_set k v d) = Some v.
Proof.
  induction d as [|[k' v'] d IH]; simpl.
  - now rewrite String.eqb_refl.
  - destruct (String.eqb k k') eqn:Hk; simpl.
    + now rewrite String.eqb_refl.
    + now rewrite Hk.
Qed.

Lemma dict_get_set_ne k k' v d :
  k <> k' -> dict_get k' (dict_set k v d) = dict_get k' d.
Proof.
  intros Hne. induction d as [|[k0 v0] d IH]; simpl.
  - destruct (String.eqb k' k) eqn:Hk; auto.
    apply String.eqb_eq in Hk. congruence.
  - destruct (String.eqb k k0) eqn:Hk; simpl.
    + apply String.eqb_eq in Hk. subst k0.
      destruct (String.eqb k' k) eqn:Hk'; auto.
      apply String.eqb_eq in Hk'. congruence.
    + destruct (String.eqb k' k0); auto.
Qed.

Lemma dict_get_update k d d' :
  dict_get k (dict_update d d') =
  match dict_get k (rev d') with
  | Some v => Some v
  | None => dict_get k d
  end.
Proof.
  unfold dict_update. revert d.
  induction d' as [|[k' v'] d' IH]; intros d; simpl; auto.
  rewrite IH. clear IH.
  induction (rev d') as [|[k0 v0] r IHr]; simpl.
  - destruct (String.eqb k k') eqn:Hk.
    + apply String.eqb_eq in Hk. subst. apply dict_get_set_eq.
    + apply dict_get_set_ne. intros ->. now rewrite String.eqb_refl in Hk.
  - destruct (String.eqb k k0); auto.
Qed.

Lemma dict_get_update1 k k' v d :
  dict_get k (dict_update d [(k', v)]) =
  if String.eqb k k' then Some v else dict_get k d.
Proof. rewrite dict_get_update. simpl. now destruct (String.eqb k k'). Qed.

(** A lookup that succeeds somewhere in [d'] also succeeds in the dict
    updated with [d']. *)
Lemma dict_get_rev_some k d :
  dict_get k d <> None <-> dict_get k (rev d) <> None.
Proof.
  assert (Happ : forall a b, dict_get k (a ++ b)%list =
            match dict_get k a with Some v => Some v | None => dict_get k b end).
  { intros a b. induction a as [|[k0 v0] a IH]; simpl; auto.
    destruct (String.eqb k k0); auto. }
  induction d as [|[k0 v0] d IH]; simpl; [tauto|].
  rewrite Happ. simpl.
  destruct (String.eqb k k0); destruct (dict_get k (rev d)); destruct (dict_get k d);
    split; intros; try congruence; tauto.
Qed.

Lemma dict_get_pop_eq k d : dict_get k (dict_pop k d) = None.
Proof.
  induction d as [|[k' v] d IH]; simpl; auto.
  destruct (String.eqb k k') eqn:Hk; simpl; auto. now rewrite Hk.
Qed.

Lemma dict_get_pop_ne k k' d :
  k <> k' -> dict_get k' (dict_pop k d) = dict_get k' d.
Proof.
  intros Hne. induction d as [|[k0 v] d IH]; simpl; auto.
  destruct (String.eqb k k0) eqn:Hk; simpl.
  - apply String.eqb_eq in Hk. subst k0.
    destruct (String.eqb k' k) eqn:Hk'; auto.
    apply String.eqb_eq in Hk'. congruence.
  - destruct (String.eqb k' k0); auto.
Qed.

Lemma dict_get_none_not_in k d : dict_get k d = None <-> ~ In k (dict_keys d).
Proof.
  induction d as [|[k' v] d IH]; simpl; [tauto|].
  destruct (String.eqb k k') eqn:Hk.
  - apply String.eqb_eq in Hk. subst. split; [discriminate | tauto].
  - rewrite IH. split; [|tauto].
    intros Hn [->|Hin]; [|tauto]. now rewrite String.eqb_refl in Hk.
Qed.

Lemma dict_get_app k a b :
  dict_get k (a ++ b)%list =
  match dict_get k a with Some v => Some v | None => dict_get k b end.
Proof.
  induction a as [|[k0 v0] a IH]; simpl; auto.
  destruct (String.eqb k k0); auto.
Qed.

Lemma dict_get_rev k d : dict_wf d -> dict_get k (rev d) = dict_get k d.
Proof.
  unfold dict_wf. induction d as [|[k' v] d IH]; simpl; auto.
  intros Hnd. inversion Hnd as [|? ? Hnotin Hnd']; subst.
  rewrite dict_get_app, IH by assumption. simpl.
  destruct (String.eqb k k') eqn:Hk.
  - apply String.eqb_eq in Hk. subst k'.
    rewrite list_elem_of_In in Hnotin.
    apply dict_get_none_not_in in Hnotin. now rewrite Hnotin.
  - now destruct (dict_get k d).
Qed.

(** Overlaying a dict: the overlay wins, the rest is kept. *)
Lemma dict_get_overlay k d d' :
  dict_wf d' ->
  dict_get k (dict_update d d') =
  match dict_get k d' with Some v => Some v | None => dict_get k d end.
Proof. intros Hwf. now rewrite dict_get_update, dict_get_rev. Qed.

Lemma dict_mem_true k d : dict_mem k d = true <-> dict_get k d <> None.
Proof. unfold dict_mem. destruct (dict_get k d); split; congruence. Qed.

Example Agent_init_example :
  Agent_init example_env "Agent" empty_state = (Ok example_agent, example_state).
Proof. reflexivity. Qed.

Example run_example :
  fst (run example_env example_agent VNone [("task", VStr "Write docs")] example_state)
  = Ok (VDict [("result", VStr " 42 ")]).
Proof. reflexivity. Qed.

(** ** [parse_output] *)

(** C8: the base [parse_output] returns exactly the mapping
    [{"result": s}] for every raw output [s], every [bot_id] and every
    RunContext, and two invocations that differ only in [bot_id] or the
    RunContext return the same mapping. *)
Theorem parse_output_wraps_result :
  forall (s : string) (bot_id bot_id' : value) (data data' : dict),
    parse_output (VStr s) bot_id data = VDict [("result", VStr s)] /\
    parse_output (VStr s) bot_id data = parse_output (VStr s) bot_id' data'.
Proof. intros. split; reflexivity. Qed.

(** ** [save_parsed_data] *)

Ltac run_m := unfold bind, lift, ret, raise, read, write, alloc in *; simpl in *.

(** C9: on a parsed-data mapping with none of the keys ["result"],
    ["Tasks"], ["status"], [save_parsed_data] makes no call to the storage
    (the state, log included, is unchanged) and returns [None]. *)
Theorem save_parsed_data_no_key :
  forall (E : Env) (self : Agent) (d : dict) (st : state),
    dict_mem "result" d = false ->
    dict_mem "Tasks" d = false ->
    dict_mem "status" d = false ->
    save_parsed_data E self (VDict d) st = (Ok VNone, st).
Proof.
  intros E self d st Hr Ht Hs.
  unfold save_parsed_data, save_operations, save_loop. run_m.
  rewrite Hr, Ht, Hs. reflexivity.
Qed.

Lemma save_parsed_data_no_key_witness :
  save_parsed_data example_env example_agent (VDict [("note", VStr "x")]) example_state
  = (Ok VNone, example_state).
Proof.
  apply (save_parsed_data_no_key example_env example_agent
           [("note", VStr "x")] example_state); reflexivity.
Defined.

(** ** [load_and_process_data] *)

Lemma _get_data_plain key loader kwargs data :
  _get_data key loader kwargs data false =
  if dict_mem key kwargs then ret data
  else bind loader (fun db_data =>
         match db_data with
         | Some d => ret (dict_update data d)
         | None => ret data
         end).
Proof. unfold _get_data. now destruct (dict_mem key kwargs). Qed.

Lemma _get_data_inverted key loader kwargs data :
  _get_data key loader kwargs data true =
  if dict_mem key kwargs
  then bind loader (fun db_data =>
         match db_data with
         | Some d => ret (dict_update data d)
         | None => ret data
         end)
  else ret data.
Proof. unfold _get_data. now destruct (dict_mem key kwargs). Qed.

(** [load_current_task] answers with a one-entry dict, or fails. *)
Lemma load_current_task_ok E self st r st' :
  load_current_task E self st = (Ok r, st') ->
  exists t, r = Some [("task", t)].
Proof.
  unfold load_current_task, get_task_list, bind, lift, ret. intros H.
  destruct (call_method E (storage self) _ _ _ st) as [[tl|] s0]; [|discriminate].
  destruct (py_getitem tl "documents") as [docs|]; [|discriminate].
  destruct (py_getitem0 docs) as [t|]; [|discriminate].
  inversion H. eauto.
Qed.

(** Inversion of a successful computation. *)
Lemma bind_ok {A B} (m : M A) (k : A -> M B) st b st' :
  bind m k st = (Ok b, st') ->
  exists a s1, m st = (Ok a, s1) /\ k a s1 = (Ok b, st').
Proof.
  unfold bind. destruct (m st) as [[a|e] s1]; [eauto | discriminate].
Qed.

Lemma lift_ok {A} (r : result A) st a st' :
  lift r st = (Ok a, st') -> r = Ok a /\ st' = st.
Proof. unfold lift. intros H. now inversion H. Qed.

Lemma ret_ok {A} (x : A) st a st' :
  ret x st = (Ok a, st') -> a = x /\ st' = st.
Proof. unfold ret. intros H. now inversion H. Qed.

Lemma get_heap_ok st h st' :
  get_heap st = (Ok h, st') -> h = heap st /\ st' = st.
Proof. unfold get_heap. intros H. now inversion H. Qed.

Ltac inv_ok H :=
  repeat first
    [ let a := fresh "a" in let s := fresh "s" in let H1 := fresh "Hstep" in
      apply bind_ok in H as (a & s & H1 & H);
      first [ apply lift_ok in H1 as [H1 ->]
            | apply get_heap_ok in H1 as [-> ->]
            | apply ret_ok in H1 as [-> ->]
            | idtac ]
    | apply ret_ok in H as [-> ->] ].

(** What a successful run has computed, stage by stage. *)
Lemma load_and_process_data_ok E self kwargs st data st' :
  load_and_process_data E self kwargs st = (Ok data, st') ->
  exists context task_result d1,
    py_get (get_or_empty "context" kwargs) "result" VNone = Ok context /\
    py_get (get_or_empty "task_result" kwargs) "result" VNone = Ok task_result /\
    (if dict_mem "task" kwargs
     then d1 = overlay (heap st) self kwargs /\ st' = st
     else exists t,
         d1 = dict_update (overlay (heap st) self kwargs) [("task", t)] /\
         load_current_task E self st = (Ok (Some [("task", t)]), st')) /\
    _set_task_order E
      (dict_update
         (if dict_mem "task_result" kwargs
          then dict_update d1 [("result", task_result)] else d1)
         [("context", context)]) = Ok data.
Proof.
  unfold load_and_process_data. intros H.
  apply bind_ok in H as (context & s & Hc & H). apply lift_ok in Hc as [Hc ->].
  apply bind_ok in H as (task_result & s & Ht & H). apply lift_ok in Ht as [Ht ->].
  apply bind_ok in H as (h & s & Hh & H). apply get_heap_ok in Hh as [-> ->].
  apply bind_ok in H as (d1 & s1 & H1 & H).
  apply bind_ok in H as (d2 & s2 & H2 & H).
  apply bind_ok in H as (d3 & s3 & H3 & H). apply lift_ok in H3 as [H3 ->].
  apply ret_ok in H as [-> ->].
  fold (overlay (heap st) self kwargs) in H1.
  exists context, task_result, d1. split; [exact Hc|]. split; [exact Ht|].
  rewrite _get_data_inverted in H2.
  assert (Hd2 : s2 = s1 /\
                d2 = if dict_mem "task_result" kwargs
                     then dict_update d1 [("result", task_result)] else d1).
  { destruct (dict_mem "task_result" kwargs).
    - apply bind_ok in H2 as (r & s & Hr & H2). apply ret_ok in Hr as [-> ->].
      apply ret_ok in H2 as [-> ->]. auto.
    - apply ret_ok in H2 as [-> ->]. auto. }
  destruct Hd2 as [-> ->]. split; [|exact H3].
  rewrite _get_data_plain in H1.
  destruct (dict_mem "task" kwargs).
  - apply ret_ok in H1 as [-> ->]. auto.
  - apply bind_ok in H1 as (r & s & Hr & H1).
    destruct (load_current_task_ok _ _ _ _ _ Hr) as [t ->].
    apply ret_ok in H1 as [-> ->]. eauto.
Qed.

Lemma _load_agent_data_wf E agent_name st ad st' :
  _load_agent_data E agent_name st = (Ok ad, st') -> agent_data_wf ad.
Proof.
  unfold _load_agent_data. intros H. inv_ok H.
  match type of H with (if ?b then _ else _) _ = _ => destruct b end; inv_ok H;
    (split; [apply (bool_decide_unpack _) | apply (bool_decide_unpack _)];
     vm_compute; exact I).
Qed.

Lemma Agent_init_wf E agent_name st self st' :
  Agent_init E agent_name st = (Ok self, st') -> agent_data_wf (agent_data self).
Proof.
  unfold Agent_init. intros H.
  apply bind_ok in H as (ad & s & Had & H).
  apply _load_agent_data_wf in Had.
  destruct (entry_get "storage" ad); [|discriminate].
  inv_ok H. exact Had.
Qed.

Lemma agent_items_get h ad k :
  dict_get k (agent_items h ad) = option_map (entry_value h) (entry_get k ad).
Proof.
  induction ad as [|[k' e] ad IH]; simpl; auto.
  destruct (String.eqb k k'); auto.
Qed.

Lemma agent_items_wf h ad : NoDup (map fst ad) -> dict_wf (agent_items h ad).
Proof.
  unfold dict_wf, dict_keys, agent_items. now rewrite map_map.
Qed.

Lemma overlay_get h self kwargs k :
  dict_wf kwargs ->
  NoDup (map fst (agent_data self)) ->
  dict_get k (overlay h self kwargs) =
  match dict_get k kwargs with
  | Some v => Some v
  | None => option_map (entry_value h) (entry_get k (agent_data self))
  end.
Proof.
  intros Hk Ha. unfold overlay.
  rewrite dict_get_overlay by assumption.
  rewrite dict_get_overlay by now apply agent_items_wf.
  rewrite agent_items_get. simpl.
  destruct (dict_get k kwargs); auto.
  now destruct (entry_get k (agent_data self)).
Qed.

(** Whatever the agent holds, a key the caller passes is the caller's. *)
Lemma overlay_get_caller h self kwargs k v :
  dict_wf kwargs ->
  dict_get k kwargs = Some v ->
  dict_get k (overlay h self kwargs) = Some v.
Proof.
  intros Hk Hv. unfold overlay. rewrite dict_get_overlay by assumption.
  now rewrite Hv.
Qed.

Lemma _set_task_order_get E d data k :
  _set_task_order E d = Ok data ->
  k <> "next_task_order" ->
  dict_get k data = dict_get k d.
Proof.
  unfold _set_task_order. intros H Hk.
  destruct (negb (is_none _)).
  - destruct (_calculate_next_task_order E _); simpl in H; inversion H.
    apply dict_get_set_ne. congruence.
  - now inversion H.
Qed.

Lemma eqb_ne (a b : string) : a <> b -> String.eqb a b = false.
Proof. intros H. now apply String.eqb_neq. Qed.

(** The stages after the overlay write only the keys ["task"] (when the
    task is loaded), ["result"], ["context"] and ["next_task_order"]. *)
Lemma load_and_process_data_get E self kwargs st data st' k :
  load_and_process_data E self kwargs st = (Ok data, st') ->
  k <> "result" -> k <> "context" -> k <> "next_task_order" ->
  k <> "task" \/ dict_mem "task" kwargs = true ->
  dict_get k data = dict_get k (overlay (heap st) self kwargs).
Proof.
  intros H Hr Hc Hn Ht.
  apply load_and_process_data_ok in H as (c & tr & d1 & _ & _ & H1 & Hs).
  rewrite (_set_task_order_get _ _ _ _ Hs Hn).
  rewrite dict_get_update1, (eqb_ne _ _ Hc).
  assert (Hd1 : dict_get k d1 = dict_get k (overlay (heap st) self kwargs)).
  { destruct (dict_mem "task" kwargs).
    - now destruct H1 as [-> _].
    - destruct H1 as (t & -> & _). destruct Ht as [Ht|Ht]; [|discriminate].
      now rewrite dict_get_update1, (eqb_ne _ _ Ht). }
  destruct (dict_mem "task_result" kwargs); auto.
  now rewrite dict_get_update1, (eqb_ne _ _ Hr).
Qed.

Lemma call_method_heap E recv meth args kw st r st' :
  call_method E recv meth args kw st = (r, st') -> heap st' = heap st.
Proof.
  unfold call_method, raise. destruct recv; intros H; inversion H; reflexivity.
Qed.

Lemma load_current_task_heap E self st r st' :
  load_current_task E self st = (r, st') -> heap st' = heap st.
Proof.
  unfold load_current_task, get_task_list, bind, lift, ret. intros H.
  destruct (call_method E (storage self) _ _ _ st) as [[tl|] s0] eqn:Hc;
    apply call_method_heap in Hc.
  - destruct (py_getitem tl "documents") as [docs|]; [|inversion H; congruence].
    destruct (py_getitem0 docs); inversion H; congruence.
  - inversion H; congruence.
Qed.

(** The mapping handed to [_set_task_order], and what it holds. *)
Lemma load_and_process_data_order E self kwargs st data st' :
  load_and_process_data E self kwargs st = (Ok data, st') ->
  heap st' = heap st /\
  exists d3,
    _set_task_order E d3 = Ok data /\
    forall k, k <> "result" -> k <> "context" ->
      k <> "task" \/ dict_mem "task" kwargs = true ->
      dict_get k d3 = dict_get k (overlay (heap st) self kwargs).
Proof.
  intros H.
  apply load_and_process_data_ok in H as (c & tr & d1 & _ & _ & H1 & Hs).
  split.
  { destruct (dict_mem "task" kwargs).
    - now destruct H1 as [_ ->].
    - destruct H1 as (t & _ & Hl). now apply load_current_task_heap in Hl. }
  eexists. split; [exact Hs|]. intros k Hr Hc Ht.
  rewrite dict_get_update1, (eqb_ne _ _ Hc).
  assert (Hd1 : dict_get k d1 = dict_get k (overlay (heap st) self kwargs)).
  { destruct (dict_mem "task" kwargs).
    - now destruct H1 as [-> _].
    - destruct H1 as (t & -> & _). destruct Ht as [Ht|Ht]; [|discriminate].
      now rewrite dict_get_update1, (eqb_ne _ _ Ht). }
  destruct (dict_mem "task_result" kwargs); auto.
  now rewrite dict_get_update1, (eqb_ne _ _ Hr).
Qed.

Lemma mapping_or_empty_get k kwargs :
  mapping_or_empty k kwargs = true ->
  exists c, py_get (get_or_empty k kwargs) "result" VNone = Ok c.
Proof.
  unfold mapping_or_empty, get_or_empty.
  destruct (dict_get k kwargs) as [v|]; simpl; [|eauto].
  destruct (py_truthy v); simpl; [|eauto].
  destruct v; try discriminate. simpl. eauto.
Qed.

Lemma bind_lift {A B} (r : result A) (k : A -> M B) a st :
  r = Ok a -> bind (lift r) k st = k a st.
Proof. now intros ->. Qed.

(** With the task passed by the caller nothing is loaded, and the run is
    the overlay followed by the three updates. *)
Lemma load_and_process_data_supplied E self kwargs st c r :
  dict_mem "task" kwargs = true ->
  py_get (get_or_empty "context" kwargs) "result" VNone = Ok c ->
  py_get (get_or_empty "task_result" kwargs) "result" VNone = Ok r ->
  load_and_process_data E self kwargs st =
  (_set_task_order E
     (dict_update
        (if dict_mem "task_result" kwargs
         then dict_update (overlay (heap st) self kwargs) [("result", r)]
         else overlay (heap st) self kwargs)
        [("context", c)]), st).
Proof.
  intros Ht Hc Hr. unfold load_and_process_data.
  rewrite (bind_lift _ _ _ _ Hc), (bind_lift _ _ _ _ Hr).
  unfold bind at 1, get_heap at 1. cbv beta iota.
  rewrite _get_data_plain, Ht.
  unfold bind at 1, ret at 1. cbv beta iota.
  rewrite _get_data_inverted.
  fold (overlay (heap st) self kwargs).
  unfold bind, ret, lift.
  destruct (dict_mem "task_result" kwargs);
    now destruct (_set_task_order E _).
Qed.

(** C5: when the caller passes the integer [N] as [this_task_order], the
    mapping [load_and_process_data] returns holds [next_task_order = N + 1]
    (and the call does return when the task is passed too and [context]
    and [task_result] are mappings or empty); when [this_task_order] is
    absent or [None], no [next_task_order] is derived: the key holds what
    the overlay of AgentData and the caller's arguments held, if anything. *)
Theorem next_task_order_is_successor :
  forall (E : Env) (self : Agent) (kwargs : dict) (st : state),
    dict_wf kwargs ->
    (forall N data st',
        dict_get "this_task_order" kwargs = Some (VInt N) ->
        load_and_process_data E self kwargs st = (Ok data, st') ->
        dict_get "next_task_order" data = Some (VInt (N + 1))) /\
    (forall N,
        dict_get "this_task_order" kwargs = Some (VInt N) ->
        dict_mem "task" kwargs = true ->
        mapping_or_empty "context" kwargs = true ->
        mapping_or_empty "task_result" kwargs = true ->
        exists data,
          load_and_process_data E self kwargs st = (Ok data, st) /\
          dict_get "next_task_order" data = Some (VInt (N + 1))) /\
    (forall data st',
        dict_get "this_task_order" kwargs = Some VNone \/
        (dict_get "this_task_order" kwargs = None /\
         entry_get "this_task_order" (agent_data self) = None) ->
        load_and_process_data E self kwargs st = (Ok data, st') ->
        dict_get "next_task_order" data =
        dict_get "next_task_order" (overlay (heap st) self kwargs)).
Proof.
  intros E self kwargs st Hwf.
  assert (Hn : forall N data st',
        dict_get "this_task_order" kwargs = Some (VInt N) ->
        load_and_process_data E self kwargs st = (Ok data, st') ->
        dict_get "next_task_order" data = Some (VInt (N + 1))).
  { intros N data st' HN H.
    apply load_and_process_data_order in H as (_ & d3 & Hs & Hget).
    unfold _set_task_order in Hs.
    rewrite Hget in Hs by (try discriminate; left; discriminate).
    rewrite (overlay_get_caller _ _ _ _ _ Hwf HN) in Hs. simpl in Hs.
    inversion Hs. apply dict_get_set_eq. }
  split; [exact Hn|]. split.
  - intros N HN Ht Hc Hr.
    destruct (mapping_or_empty_get _ _ Hc) as [c Hc'].
    destruct (mapping_or_empty_get _ _ Hr) as [r Hr'].
    assert (Hrun : exists data, load_and_process_data E self kwargs st = (Ok data, st)).
    { rewrite (load_and_process_data_supplied _ _ _ _ _ _ Ht Hc' Hr').
      unfold _set_task_order.
      set (d2 := if dict_mem "task_result" kwargs then _ else _).
      assert (Hg : dict_get "this_task_order" (dict_update d2 [("context", c)])
                   = Some (VInt N)).
      { rewrite dict_get_update1. simpl. unfold d2.
        destruct (dict_mem "task_result" kwargs).
        - rewrite dict_get_update1. simpl.
          now apply overlay_get_caller.
        - now apply overlay_get_caller. }
      rewrite Hg. simpl. eauto. }
    destruct Hrun as [data Hrun]. exists data. split; [exact Hrun|].
    now apply (Hn N data st).
  - intros data st' Habs H.
    apply load_and_process_data_order in H as (_ & d3 & Hs & Hget).
    assert (Hnone : is_none (default VNone (dict_get "this_task_order" d3)) = true).
    { rewrite Hget by (try discriminate; left; discriminate).
      destruct Habs as [Hk|[Hk Ha]].
      - now rewrite (overlay_get_caller _ _ _ _ _ Hwf Hk).
      - unfold overlay. rewrite dict_get_overlay, Hk by assumption.
        rewrite dict_get_update.
        destruct (dict_get "this_task_order" (rev (agent_items _ _))) eqn:Hrev; auto.
        exfalso.
        assert (Hx : dict_get "this_task_order"
                       (agent_items (heap st) (agent_data self)) <> None).
        { apply dict_get_rev_some. congruence. }
        apply Hx. now rewrite agent_items_get, Ha. }
    unfold _set_task_order in Hs. rewrite Hnone in Hs. simpl in Hs.
    inversion Hs. subst. apply Hget; try discriminate. left; discriminate.
Qed.

Ltac decide_now := apply (bool_decide_unpack _); vm_compute; exact I.

Lemma next_task_order_is_successor_witness :
  exists data,
    load_and_process_data example_env example_agent
      [("task", VStr "Write docs"); ("this_task_order", VInt 3)] example_state
    = (Ok data, example_state) /\
    dict_get "next_task_order" data = Some (VInt 4).
Proof.
  assert (Hwf : dict_wf [("task", VStr "Write docs"); ("this_task_order", VInt 3)])
    by decide_now.
  destruct (next_task_order_is_successor example_env example_agent
              [("task", VStr "Write docs"); ("this_task_order", VInt 3)]
              example_state Hwf) as (_ & Hrun & _).
  apply (Hrun 3); reflexivity.
Defined.

(** C6: the RunContext [load_and_process_data] returns starts from a copy
    of AgentData overlaid with the caller's keyword arguments: a field of
    AgentData the caller also passes holds the caller's value, a field the
    caller does not pass holds the AgentData value, every argument of the
    caller other than the derived fields ([result], [context],
    [next_task_order]) is carried over, and the shared objects are left as
    they were. *)
Theorem run_context_overlays_agent_data :
  forall (E : Env) (self : Agent) (kwargs : dict) (st : state) (data : dict)
         (st' : state),
    dict_wf kwargs ->
    agent_data_wf (agent_data self) ->
    load_and_process_data E self kwargs st = (Ok data, st') ->
    (forall k e v,
        entry_get k (agent_data self) = Some e ->
        dict_get k kwargs = Some v ->
        dict_get k data = Some v) /\
    (forall k e,
        entry_get k (agent_data self) = Some e ->
        dict_get k kwargs = None ->
        dict_get k data = Some (entry_value (heap st) e)) /\
    (forall k v,
        dict_get k kwargs = Some v ->
        k <> "result" -> k <> "context" -> k <> "next_task_order" ->
        dict_get k data = Some v) /\
    heap st' = heap st.
Proof.
  intros E self kwargs st data st' Hwf [Hnd Hkeys] H.
  assert (Hfield : forall k e, entry_get k (agent_data self) = Some e ->
            k <> "result" /\ k <> "context" /\ k <> "next_task_order" /\ k <> "task").
  { intros k e He.
    assert (Hin : In k (map fst (agent_data self))).
    { clear -He. induction (agent_data self) as [|[k' e'] ad IH]; simpl in *;
        [discriminate|].
      destruct (String.eqb k k') eqn:Hk; [left; symmetry; now apply String.eqb_eq | auto]. }
    rewrite Forall_forall in Hkeys. apply list_elem_of_In, Hkeys in Hin.
    unfold agent_keys in Hin. apply list_elem_of_In in Hin. simpl in Hin.
    repeat split; intros ->;
      repeat (destruct Hin as [Hin|Hin]; [discriminate|]); exact Hin. }
  repeat split.
  - intros k e v He Hv. destruct (Hfield k e He) as (Hr & Hc & Hn & Ht).
    rewrite (load_and_process_data_get _ _ _ _ _ _ k H) by auto.
    now apply overlay_get_caller.
  - intros k e He Hv. destruct (Hfield k e He) as (Hr & Hc & Hn & Ht).
    rewrite (load_and_process_data_get _ _ _ _ _ _ k H) by auto.
    now rewrite overlay_get, Hv, He by assumption.
  - intros k v Hv Hr Hc Hn.
    rewrite (load_and_process_data_get _ _ _ _ _ _ k H); auto.
    + now apply overlay_get_caller.
    + destruct (String.eqb k "task") eqn:Hk.
      * apply String.eqb_eq in Hk. subst. right.
        apply dict_mem_true. congruence.
      * left. now apply String.eqb_neq.
  - now apply load_and_process_data_order in H as [Hh _].
Qed.

Lemma run_context_overlays_agent_data_witness :
  exists data,
    load_and_process_data example_env example_agent
      [("task", VStr "Write docs"); ("name", VStr "Override")] example_state
    = (Ok data, example_state) /\
    dict_get "name" data = Some (VStr "Override") /\
    dict_get "objective" data = Some (VStr "Ship it").
Proof.
  eexists. split; [vm_compute; reflexivity|].
  assert (Hwf : dict_wf [("task", VStr "Write docs"); ("name", VStr "Override")])
    by decide_now.
  assert (Hag : agent_data_wf (agent_data example_agent))
    by (split; decide_now).
  match goal with |- dict_get _ ?d = _ /\ _ =>
    assert (Hrun : load_and_process_data example_env example_agent
                     [("task", VStr "Write docs"); ("name", VStr "Override")]
                     example_state = (Ok d, example_state))
      by (vm_compute; reflexivity)
  end.
  destruct (run_context_overlays_agent_data example_env example_agent _
              example_state _ example_state Hwf Hag Hrun)
    as (Hboth & Hagent & _).
  split.
  - apply (Hboth "name" (Val (VStr "Agent"))); reflexivity.
  - apply (Hagent "objective" (Val (VStr "Ship it"))); reflexivity.
Defined.

(** ** [run] with no task to load *)

Lemma bind_lift_err {A B} (r : result A) (k : A -> M B) e st :
  r = Err e -> bind (lift r) k st = (Err e, st).
Proof. now intros ->. Qed.

Lemma bind_err {A B} (m : M A) (k : A -> M B) e st st' :
  m st = (Err e, st') -> bind m k st = (Err e, st').
Proof. unfold bind. now intros ->. Qed.





(** ** [save_tasks] *)

Lemma task_record_fields t :
  is_task_record t = true ->
  py_getitem t "Description" = Ok (task_field "Description" t) /\
  py_getitem t "Order" = Ok (task_field "Order" t).
Proof.
  destruct t; try discriminate. simpl. unfold dict_mem.
  destruct (dict_get "Description" d); [|discriminate].
  destruct (dict_get "Order" d); [|discriminate]. auto.
Qed.

Lemma drawn_ids_S E lg n :
  drawn_ids E lg (S n) = uuid4_str E lg :: drawn_ids E (lg ++ [Uuid4])%list n.
Proof.
  unfold drawn_ids. simpl. rewrite app_nil_r. f_equal.
  rewrite <- seq_shift, map_map. apply map_ext. intros i. simpl.
  now rewrite <- app_assoc.
Qed.

Lemma task_metadata_run E t st :
  is_task_record t = true ->
  task_metadata E t st =
  (Ok (metadata_of t (uuid4_str E (log st))),
   {| heap := heap st; log := (log st ++ [Uuid4])%list |}).
Proof.
  intros Ht. destruct (task_record_fields t Ht) as [Hd Ho].
  unfold task_metadata. rewrite (bind_lift _ _ _ _ Hd).
  unfold bind at 1, uuid4 at 1. cbv beta iota.
  now rewrite (bind_lift _ _ _ _ Ho).
Qed.

Lemma metadatas_run E ts : forall st,
  forallb is_task_record ts = true ->
  mapM (task_metadata E) ts st =
  (Ok (zip_with metadata_of ts (drawn_ids E (log st) (length ts))),
   {| heap := heap st; log := (log st ++ repeat Uuid4 (length ts))%list |}).
Proof.
  induction ts as [|t ts IH]; intros st Hts.
  - simpl. unfold ret. rewrite app_nil_r. now destruct st.
  - simpl in Hts. apply andb_prop in Hts as [Ht Hts].
    cbn [mapM]. unfold bind at 1. rewrite (task_metadata_run _ _ _ Ht).
    unfold bind at 1. rewrite (IH _ Hts). unfold ret. cbn [heap log length].
    rewrite drawn_ids_S. cbn [zip_with repeat]. now rewrite <- app_assoc.
Qed.

Lemma orders_run ts :
  forallb is_task_record ts = true ->
  rmapM (fun task => py_getitem task "Order") ts = Ok (map (task_field "Order") ts).
Proof.
  induction ts as [|t ts IH]; intros Hts; [reflexivity|].
  simpl in Hts. apply andb_prop in Hts as [Ht Hts].
  cbn [rmapM map]. destruct (task_record_fields t Ht) as [_ ->].
  cbn [rbind]. now rewrite (IH Hts).
Qed.

Lemma list_ids_of_metadata ts : forall ids,
  length ids = length ts ->
  map (task_field "List_ID") (zip_with metadata_of ts ids) = map VStr ids.
Proof.
  induction ts as [|t ts IH]; intros [|i ids] Hlen; try discriminate; auto.
  simpl. f_equal. apply IH. now inversion Hlen.
Qed.

Lemma drawn_ids_length E lg n : length (drawn_ids E lg n) = n.
Proof. unfold drawn_ids. now rewrite length_map, length_seq. Qed.

(** [save_tasks] on task records, once the clear has returned. *)
Lemma save_tasks_run E self ts descs st h :
  storage self = VObj h ->
  forallb is_task_record ts = true ->
  (exists v, respond E (log st) h "clear_collection" [VStr "Tasks"] [] = Ok v) ->
  let lg1 := (log st ++ [clear_tasks_call h])%list in
  let lg2 := (lg1 ++ repeat Uuid4 (length ts))%list in
  let params := tasks_params E lg1 ts descs in
  save_tasks E self (VList ts) descs st =
  (respond E lg2 h "save_memory" [params] [],
   {| heap := heap st;
      log := (lg2 ++ [MethodCall h "save_memory" [params] []])%list |}).
Proof.
  intros Hs Hts [v Hv]. cbv zeta. unfold save_tasks. rewrite Hs.
  unfold bind at 1, call_method at 1. rewrite Hv.
  rewrite (bind_lift _ _ ts _ eq_refl).
  unfold bind at 1. rewrite (metadatas_run _ _ _ Hts). cbn [heap log].
  rewrite (bind_lift _ _ ts _ eq_refl).
  rewrite (bind_lift _ _ _ _ (orders_run ts Hts)).
  unfold call_method, tasks_params, clear_tasks_call. cbn [heap log].
  now rewrite map_map.
Qed.

(** C4: on a list of task records (each with a ["Description"] and an
    ["Order"]), [save_tasks] first clears the "Tasks" collection and then,
    the clear having returned, saves one record per task: the ids are the
    [str] of the orders, the data is the description list it was given,
    and the metadata of each task holds Status "not completed", the task's
    Description and Order, and as List_ID an identifier drawn from [uuid4]
    for that task during the call, so that the List_IDs are pairwise
    distinct whenever the draws are. *)
Theorem save_tasks_clears_then_saves :
  forall (E : Env) (self : Agent) (ts : list value) (descs : value) (st : state)
         (h : nat),
    storage self = VObj h ->
    forallb is_task_record ts = true ->
    (exists v, respond E (log st) h "clear_collection" [VStr "Tasks"] [] = Ok v) ->
    let lg1 := (log st ++ [clear_tasks_call h])%list in
    let ids := drawn_ids E lg1 (length ts) in
    let metadata := zip_with metadata_of ts ids in
    let params :=
      VDict [("collection_name", VStr "Tasks");
             ("ids", VList (map (fun t => VStr (py_str E (task_field "Order" t))) ts));
             ("data", descs);
             ("metadata", VList metadata)] in
    log (snd (save_tasks E self (VList ts) descs st)) =
      (log st ++ [clear_tasks_call h] ++ repeat Uuid4 (length ts)
         ++ [MethodCall h "save_memory" [params] []])%list /\
    length metadata = length ts /\
    map (task_field "List_ID") metadata = map VStr ids /\
    (NoDup ids -> NoDup (map (task_field "List_ID") metadata)).
Proof.
  intros E self ts descs st h Hs Hts Hclear. cbv zeta.
  assert (Hids : map (task_field "List_ID")
                   (zip_with metadata_of ts
                      (drawn_ids E (log st ++ [clear_tasks_call h])%list (length ts)))
                 = map VStr (drawn_ids E (log st ++ [clear_tasks_call h])%list (length ts))).
  { apply list_ids_of_metadata, drawn_ids_length. }
  split; [|split; [|split]].
  - rewrite (save_tasks_run E self ts descs st h Hs Hts Hclear).
    cbn [snd log]. unfold tasks_params. now rewrite <- !app_assoc.
  - rewrite length_zip_with, drawn_ids_length. lia.
  - exact Hids.
  - intros Hnd. rewrite Hids. apply NoDup_fmap_2; [|exact Hnd].
    intros a b Hab. now inversion Hab.
Qed.

Lemma save_tasks_clears_then_saves_witness :
  log (snd (save_tasks example_env example_agent
              (VList [VDict [("Description", VStr "A"); ("Order", VInt 1)];
                      VDict [("Description", VStr "B"); ("Order", VInt 2)]])
              (VList [VStr "A"; VStr "B"]) example_state))
  = [MethodCall 1 "clear_collection" [VStr "Tasks"] []; Uuid4; Uuid4;
     MethodCall 1 "save_memory"
       [VDict [("collection_name", VStr "Tasks");
               ("ids", VList [VStr "1"; VStr "2"]);
               ("data", VList [VStr "A"; VStr "B"]);
               ("metadata",
                VList [VDict [("Status", VStr "not completed");
                              ("Description", VStr "A");
                              ("List_ID", VStr "1");
                              ("Order", VInt 1)];
                       VDict [("Status", VStr "not completed");
                              ("Description", VStr "B");
                              ("List_ID", VStr "2");
                              ("Order", VInt 2)]])]] []].
Proof.
  apply (save_tasks_clears_then_saves example_env example_agent
           [VDict [("Description", VStr "A"); ("Order", VInt 1)];
            VDict [("Description", VStr "B"); ("Order", VInt 2)]]
           (VList [VStr "A"; VStr "B"]) example_state 1 eq_refl eq_refl).
  exists VNone. reflexivity.
Defined.

(** ** [save_parsed_data] with several keys *)

Lemma save_loop_absent key fs rest d out st :
  dict_mem key d = false ->
  save_loop ((key, fs) :: rest) (VDict d) out st = save_loop rest (VDict d) out st.
Proof.
  intros Hk. destruct fs as [f sel]. cbn [save_loop].
  unfold bind at 1, lift at 1, py_in. now rewrite Hk.
Qed.

Lemma save_loop_present key f sel rest d out st r st1 out' :
  dict_mem key d = true ->
  f (default VNone (dict_get key d)) st = (Ok r, st1) ->
  sel (VDict d) = Ok out' ->
  save_loop ((key, (f, sel)) :: rest) (VDict d) out st =
  save_loop rest (VDict d) out' st1.
Proof.
  intros Hk Hf Hsel. cbn [save_loop].
  unfold bind at 1, lift at 1, py_in. rewrite Hk. cbv beta iota.
  assert (Hget : py_getitem (VDict d) key = Ok (default VNone (dict_get key d))).
  { unfold py_getitem, dict_mem in *. now destruct (dict_get key d). }
  rewrite (bind_lift _ _ _ _ Hget). unfold bind at 1. rewrite Hf.
  now rewrite (bind_lift _ _ _ _ Hsel).
Qed.

Lemma descriptions_run ts :
  forallb is_task_record ts = true ->
  rmapM (fun task => py_getitem task "Description") ts
  = Ok (map (task_field "Description") ts).
Proof.
  induction ts as [|t ts IH]; intros Hts; [reflexivity|].
  simpl in Hts. apply andb_prop in Hts as [Ht Hts].
  cbn [rmapM map]. destruct (task_record_fields t Ht) as [-> _].
  cbn [rbind]. now rewrite (IH Hts).
Qed.

Lemma result_branch_run E self h (arg : value) st :
  storage self = VObj h ->
  storage_returns E h ->
  exists r,
    save_results E self arg "Results" st =
    (Ok r,
     log_append st
       [MethodCall h "save_memory"
          [VDict [("data", VList [arg]); ("collection_name", VStr "Results")]] []]).
Proof.
  intros Hs Hret. unfold save_results, call_method. rewrite Hs.
  destruct (Hret (log st) "save_memory"
              [VDict [("data", VList [arg]); ("collection_name", VStr "Results")]] [])
    as [v Hv].
  exists v. now rewrite Hv.
Qed.

Lemma tasks_branch_run E self h ts st :
  storage self = VObj h ->
  storage_returns E h ->
  forallb is_task_record ts = true ->
  exists r,
    (let* ts' := lift (py_iter (VList ts)) in
     let* descs := lift (rmapM (fun task => py_getitem task "Description") ts') in
     save_tasks E self (VList ts) (VList descs)) st =
    (Ok r,
     log_append st
       ([clear_tasks_call h] ++ repeat Uuid4 (length ts) ++
        [MethodCall h "save_memory"
           [tasks_params E (log st ++ [clear_tasks_call h])%list ts
              (VList (map (task_field "Description") ts))] []])).
Proof.
  intros Hs Hret Hts.
  rewrite (bind_lift _ _ ts _ eq_refl).
  rewrite (bind_lift _ _ _ _ (descriptions_run ts Hts)).
  rewrite (save_tasks_run E self ts _ st h Hs Hts (Hret _ _ _ _)).
  destruct (Hret ((log st ++ [clear_tasks_call h]) ++ repeat Uuid4 (length ts))%list
              "save_memory"
              [tasks_params E (log st ++ [clear_tasks_call h])%list ts
                 (VList (map (task_field "Description") ts))] []) as [v Hv].
  exists v. rewrite Hv. unfold log_append. now rewrite <- !app_assoc.
Qed.

Lemma status_branch_run E self h d t (status : value) st :
  storage self = VObj h ->
  storage_returns E h ->
  dict_get "task" d = Some (VDict t) ->
  dict_mem "task_id" t && dict_mem "description" t && dict_mem "order" t = true ->
  exists r,
    (let* task := lift (py_getitem (VDict d) "task") in
     let* task_id := lift (py_getitem task "task_id") in
     let* task' := lift (py_getitem (VDict d) "task") in
     let* description := lift (py_getitem task' "description") in
     let* task'' := lift (py_getitem (VDict d) "task") in
     let* order := lift (py_getitem task'' "order") in
     save_status E self status task_id description order) st =
    (Ok r,
     log_append st
       [MethodCall h "update_memory"
          [VDict [("collection_name", VStr "Tasks");
                  ("ids", VList [task_field "task_id" (VDict t)]);
                  ("data", VList [task_field "description" (VDict t)]);
                  ("metadata",
                   VList [VDict [("Status", status);
                                 ("Description", task_field "description" (VDict t));
                                 ("Order", task_field "order" (VDict t))]])]] []]).
Proof.
  intros Hs Hret Htask Hfields.
  apply andb_prop in Hfields as [Hfields Ho].
  apply andb_prop in Hfields as [Hi Hd].
  assert (Hget : py_getitem (VDict d) "task" = Ok (VDict t)).
  { unfold py_getitem. now rewrite Htask. }
  assert (Hfield : forall k, dict_mem k t = true ->
             py_getitem (VDict t) k = Ok (task_field k (VDict t))).
  { intros k Hk. unfold py_getitem, task_field, dict_mem in *.
    now destruct (dict_get k t). }
  rewrite (bind_lift _ _ _ _ Hget), (bind_lift _ _ _ _ (Hfield _ Hi)).
  rewrite (bind_lift _ _ _ _ Hget), (bind_lift _ _ _ _ (Hfield _ Hd)).
  rewrite (bind_lift _ _ _ _ Hget), (bind_lift _ _ _ _ (Hfield _ Ho)).
  unfold save_status, call_method. rewrite Hs.
  match goal with |- context [respond E ?lg h ?m ?a ?k] =>
    destruct (Hret lg m a k) as [v Hv] end.
  exists v. now rewrite Hv.
Qed.

(** C1, as the code has it: [save_parsed_data] goes through the keys
    ["result"], ["Tasks"], ["status"] in that order; on a parsed-data
    mapping whose matching branches can run (["Tasks"] a list of task
    records, ["status"] accompanied by a ["task"] record with [task_id],
    [description] and [order]) and with a storage whose calls return, the
    persistence routine of every matching key is invoked, in that order,
    and the output is the selection of the last matching key: the whole
    mapping for ["result"] and ["status"], [parsed_data["Tasks"]] for
    ["Tasks"]. *)
Theorem save_parsed_data_last_key_wins :
  forall (E : Env) (self : Agent) (d : dict) (st : state) (h : nat),
    storage self = VObj h ->
    storage_returns E h ->
    branches_well_formed d = true ->
    save_parsed_data E self (VDict d) st =
    (Ok (last_selected d),
     after_status h d (after_tasks E h d (after_result h d st))).
Proof.
  intros E self d st h Hs Hret Hwf.
  unfold branches_well_formed in Hwf. apply andb_prop in Hwf as [Hwt Hws].
  unfold save_parsed_data, save_operations.
  unfold last_selected, after_status, after_tasks, after_result.
  (* "result" *)
  set (st1 := if dict_mem "result" d then _ else st).
  set (out1 := if dict_mem "result" d then VDict d else VNone).
  match goal with |- save_loop (_ :: ?rest) _ _ _ = _ =>
    assert (H1 : save_loop (save_operations E self (VDict d)) (VDict d) VNone st
                 = save_loop rest (VDict d) out1 st1)
  end.
  { unfold save_operations, st1, out1.
    destruct (dict_mem "result" d) eqn:Hr.
    - destruct (result_branch_run E self h (default VNone (dict_get "result" d)) st Hs Hret)
        as [r Hrun].
      eapply save_loop_present; [exact Hr | exact Hrun | reflexivity].
    - now apply save_loop_absent. }
  unfold save_operations in H1. rewrite H1. clear H1.
  (* "Tasks" *)
  set (st2 := if dict_mem "Tasks" d then _ else st1).
  set (out2 := if dict_mem "Tasks" d then default VNone (dict_get "Tasks" d) else out1).
  match goal with |- save_loop (?op :: ?rest) _ _ _ = _ =>
    assert (H2 : save_loop (op :: rest) (VDict d) out1 st1
                 = save_loop rest (VDict d) out2 st2)
  end.
  { unfold st2, out2.
    destruct (dict_mem "Tasks" d) eqn:Ht.
    - destruct (dict_get "Tasks" d) as [[| | | |ts| |]|] eqn:Hg; try discriminate.
      destruct (tasks_branch_run E self h ts st1 Hs Hret Hwt) as [r Hrun].
      eapply save_loop_present; [exact Ht | rewrite Hg; exact Hrun |].
      unfold py_getitem. now rewrite Hg.
    - now apply save_loop_absent. }
  rewrite H2. clear H2.
  (* "status" *)
  destruct (dict_mem "status" d) eqn:Hst.
  - destruct (dict_get "task" d) as [[| | | | |t|]|] eqn:Hg; try discriminate.
    destruct (status_branch_run E self h d t (default VNone (dict_get "status" d))
                st2 Hs Hret Hg Hws) as [r Hrun].
    erewrite save_loop_present; [| exact Hst | exact Hrun | reflexivity].
    reflexivity.
  - rewrite save_loop_absent by exact Hst. cbn [save_loop]. unfold ret.
    unfold out2, out1. now destruct (dict_mem "Tasks" d), (dict_mem "result" d).
Qed.

Lemma example_storage_returns : storage_returns example_env 1.
Proof.
  intros lg meth args kw. simpl.
  destruct (String.eqb meth "generate_text"); eexists; reflexivity.
Qed.

Lemma save_parsed_data_last_key_wins_witness :
  fst (save_parsed_data example_env example_agent
         (VDict [("result", VStr "x");
                 ("Tasks", VList [VDict [("Description", VStr "A"); ("Order", VInt 1)]])])
         example_state)
  = Ok (VList [VDict [("Description", VStr "A"); ("Order", VInt 1)]]).
Proof.
  rewrite (save_parsed_data_last_key_wins example_env example_agent
             [("result", VStr "x");
              ("Tasks", VList [VDict [("Description", VStr "A"); ("Order", VInt 1)]])]
             example_state 1 eq_refl example_storage_returns eq_refl).
  reflexivity.
Defined.

(** C1 as stated fails: a mapping with ["result"] and ["status"] but no
    ["task"] record holds two of the keys, yet the ["status"] branch
    raises [KeyError] before its routine is called: only the ["result"]
    branch has saved, and no output is returned. *)
Lemma save_parsed_data_status_without_task :
  dict_mem "result" [("result", VStr "x"); ("status", VStr "done")] = true /\
  dict_mem "status" [("result", VStr "x"); ("status", VStr "done")] = true /\
  save_parsed_data example_env example_agent
    (VDict [("result", VStr "x"); ("status", VStr "done")]) example_state
  = (Err (KeyError "task"),
     {| heap := heap example_state;
        log := [MethodCall 1 "save_memory"
                  [VDict [("data", VList [VStr "x"]);
                          ("collection_name", VStr "Results")]] []] |}).
Proof. repeat split. Qed.

(** ** [_render_template] *)

Lemma format_text_literal E kw lit rest :
  plain_text lit = true ->
  format_text E kw (lit ++ rest) =
  let? r := format_text E kw rest in Ok (lit ++ r).
Proof.
  induction lit as [|c lit IH]; intros Hp.
  - change (EmptyString ++ rest) with rest. now destruct (format_text E kw rest).
  - simpl in Hp. apply andb_prop in Hp as [Hc Hp]. apply andb_prop in Hc as [Ho Hcl].
    apply negb_true_iff in Ho, Hcl.
    change (String c lit ++ rest) with (String c (lit ++ rest)).
    cbn [format_text]. rewrite Ho, Hcl, (IH Hp). unfold prepend.
    now destruct (format_text E kw rest).
Qed.

Lemma format_name_scan E kw name rest : forall acc,
  name_chars name = true ->
  format_name E kw (name ++ String "}" rest) acc =
  let? s := format_field E (string_rev_onto acc name) kw in
  let? r := format_text E kw rest in
  Ok (s ++ r).
Proof.
  induction name as [|c name IH]; intros acc Hn.
  - reflexivity.
  - simpl in Hn. apply andb_prop in Hn as [Hc Hn]. apply andb_prop in Hc as [Hc Hsp].
    apply andb_prop in Hc as [Ho Hcl]. apply negb_true_iff in Ho, Hcl, Hsp.
    change (String c name ++ String "}" rest) with (String c (name ++ String "}" rest)).
    cbn [format_name]. rewrite Ho, Hcl, Hsp, (IH _ Hn).
    f_equal.
Qed.

Lemma py_in_var_list k vars : py_in k (var_list vars) = Ok (declared k vars).
Proof.
  unfold py_in, var_list, declared. f_equal.
  induction vars as [|s vars IH]; simpl; auto. now rewrite IH.
Qed.

Lemma select_items_var_list vars data :
  select_items (var_list vars) data =
  Ok (List.filter (fun kv => declared (fst kv) vars) data).
Proof.
  induction data as [|[k v] data IH]; [reflexivity|].
  cbn [select_items]. rewrite py_in_var_list, IH. cbn [rbind List.filter fst].
  now destruct (declared k vars).
Qed.

(** The keyword arguments [format] receives: the RunContext entries of
    the declared variables. *)
Lemma dict_get_selected name vars (data : dict) :
  dict_get name (List.filter (fun kv => declared (fst kv) vars) data) =
  if declared name vars then dict_get name data else None.
Proof.
  induction data as [|[k v] data IH]; simpl.
  - now destruct (declared name vars).
  - destruct (declared k vars) eqn:Hd; simpl;
      destruct (String.eqb name k) eqn:Hk; try exact IH.
    + apply String.eqb_eq in Hk. subst. now rewrite Hd.
    + apply String.eqb_eq in Hk. subst. rewrite Hd in *. exact IH.
Qed.

Lemma string_app_nil_r (s : string) : s ++ EmptyString = s.
Proof.
  induction s as [|c s IH]; [reflexivity|].
  change (String c s ++ EmptyString) with (String c (s ++ EmptyString)). now rewrite IH.
Qed.

(** C2 as stated fails: the variable ["task"] is declared and absent from
    the RunContext, yet a template that does not use it renders. *)
Lemma render_template_unused_variable_absent :
  declared "task" ["task"] = true /\
  dict_get "task" [] = None /\
  _render_template example_env (VStr "Hello") (var_list ["task"]) [] = Ok "Hello".
Proof. repeat split. Qed.

Lemma format_text_field E kw name rest :
  plain_name name = true ->
  format_text E kw ("{" ++ name ++ "}" ++ rest) =
  let? s := format_field E name kw in
  let? r := format_text E kw rest in Ok (s ++ r).
Proof.
  intros Hname. unfold plain_name in Hname.
  apply andb_prop in Hname as [Hchars Hnum].
  change ("{" ++ name ++ "}" ++ rest) with (String "{" (name ++ String "}" rest)).
  destruct name as [|c name]; [discriminate|].
  change (String c name ++ String "}" rest)
    with (String c (name ++ String "}" rest)).
  cbn [format_text].
  change ("{"%char =? "{"%char)%char with true. cbv iota.
  assert (Hc : Ascii.eqb c "{" = false).
  { simpl in Hchars. destruct (Ascii.eqb c "{"); [discriminate | reflexivity]. }
  rewrite Hc.
  change (String c (name ++ String "}" rest))
    with (String c name ++ String "}" rest).
  now rewrite (format_name_scan E kw (String c name) rest EmptyString Hchars).
Qed.

Lemma render_segments E vars data segs :
  forallb segment_ok segs = true ->
  _render_template E (VStr (template_text segs)) (var_list vars) data =
  substitute E vars data segs.
Proof.
  unfold _render_template. rewrite select_items_var_list. cbn [rbind].
  set (kw := List.filter _ data).
  induction segs as [|seg segs IH]; intros Hok; [reflexivity|].
  cbn [forallb] in Hok. apply andb_prop in Hok as [Hseg Hok].
  destruct seg as [lit|name]; cbn [template_text substitute segment_ok] in *.
  - rewrite (format_text_literal E kw lit _ Hseg). now rewrite (IH Hok).
  - rewrite (format_text_field E kw name _ Hseg).
    unfold format_field, bound.
    unfold plain_name in Hseg. apply andb_prop in Hseg as [_ Hnum].
    apply negb_true_iff in Hnum. rewrite Hnum.
    unfold kw. rewrite dict_get_selected.
    destruct (if declared name vars then dict_get name data else None) as [v|];
      [|reflexivity].
    cbn [rbind]. fold kw. now rewrite (IH Hok).
Qed.

Lemma substitute_first_unbound E vars data name post : forall pre,
  (forall n, In (Field n) pre -> bound vars data n <> None) ->
  bound vars data name = None ->
  substitute E vars data (pre ++ Field name :: post) = Err (KeyError name).
Proof.
  induction pre as [|seg pre IH]; intros Hpre Hname.
  - cbn [app substitute]. now rewrite Hname.
  - assert (Hrec : substitute E vars data (pre ++ Field name :: post)
                   = Err (KeyError name)).
    { apply IH; [|exact Hname]. intros n Hn. apply Hpre. now right. }
    destruct seg as [lit|n]; cbn [app substitute].
    + now rewrite Hrec.
    + destruct (bound vars data n) as [v|] eqn:Hb.
      * now rewrite Hrec.
      * exfalso. apply (Hpre n); [now left | exact Hb].
Qed.

Lemma substitute_all_bound E vars data segs :
  (forall n, In (Field n) segs -> bound vars data n <> None) ->
  exists text, substitute E vars data segs = Ok text.
Proof.
  induction segs as [|seg segs IH]; intros Hall; [eexists; reflexivity|].
  destruct IH as [text Htext]; [intros n Hn; apply Hall; now right|].
  destruct seg as [lit|n]; cbn [substitute]; rewrite Htext.
  - eexists. reflexivity.
  - destruct (bound vars data n) as [v|] eqn:Hb.
    + eexists. reflexivity.
    + exfalso. apply (Hall n); [now left | exact Hb].
Qed.

(** C2, as the code has it: for every template made of literal text
    without braces and of fields [{name}] with a keyword name, rendering
    goes through the segments left to right, keeps the literal text and
    replaces each field by the [str] of the RunContext value of its name
    when the name is listed in [vars] and present in the RunContext; it
    fails with the missing-key error for the name of the first field that
    is not listed in [vars] or is absent from the RunContext, and it
    returns a text when every field of the template is listed and
    present, whatever else [vars] declares. *)
Theorem render_template_substitutes :
  forall (E : Env) (vars : list string) (data : dict) (segs : list segment),
    forallb segment_ok segs = true ->
    _render_template E (VStr (template_text segs)) (var_list vars) data =
      substitute E vars data segs /\
    (forall pre name post,
        segs = (pre ++ Field name :: post)%list ->
        (forall n, In (Field n) pre -> bound vars data n <> None) ->
        bound vars data name = None ->
        _render_template E (VStr (template_text segs)) (var_list vars) data
        = Err (KeyError name)) /\
    ((forall n, In (Field n) segs -> bound vars data n <> None) ->
     exists text,
       _render_template E (VStr (template_text segs)) (var_list vars) data = Ok text).
Proof.
  intros E vars data segs Hok.
  rewrite (render_segments E vars data segs Hok).
  split; [reflexivity|]. split.
  - intros pre name post -> Hpre Hname.
    now apply substitute_first_unbound.
  - intros Hall. now apply substitute_all_bound.
Qed.

Lemma render_template_substitutes_witness :
  _render_template example_env (VStr "Task: {task}") (var_list ["task"])
    [("task", VStr "Write docs")] = Ok "Task: Write docs" /\
  _render_template example_env (VStr "Task: {task}") (var_list ["task"]) []
    = Err (KeyError "task").
Proof.
  split.
  - exact (proj1 (render_template_substitutes example_env ["task"]
                    [("task", VStr "Write docs")] [Lit "Task: "; Field "task"]
                    eq_refl)).
  - apply (proj1 (proj2 (render_template_substitutes example_env ["task"] []
                           [Lit "Task: "; Field "task"] eq_refl))
             [Lit "Task: "] "task" [] eq_refl).
    + intros n [Hn|[]]. discriminate.
    + reflexivity.
Defined.

(** ** [generate_prompt] *)

Lemma read_copy h lg x :
  read (length h) (with_copy h lg x) = (Ok (VDict x), with_copy h lg x).
Proof.
  unfold read, with_copy. cbn [heap].
  now rewrite list_lookup_middle.
Qed.

Lemma write_copy h lg x v :
  write (length h) (VDict v) (with_copy h lg x) = (Ok tt, with_copy h lg v).
Proof.
  unfold write, with_copy. cbn [heap log]. do 2 f_equal.
  rewrite insert_app_r_alt by lia. now rewrite Nat.sub_diag.
Qed.

Lemma remove_prompt_if_none_run h lg x kwargs prompt_type kwarg_key :
  remove_prompt_if_none (length h) kwargs prompt_type kwarg_key (with_copy h lg x) =
  (Ok tt, with_copy h lg (dropped kwargs prompt_type kwarg_key x)).
Proof.
  unfold remove_prompt_if_none, dropped.
  unfold bind at 1. rewrite read_copy.
  rewrite (bind_lift _ _ (default VNone (dict_get prompt_type x)) _).
  2:{ unfold py_get. now destruct (dict_get prompt_type x). }
  destruct (py_truthy _ && is_none _).
  - apply write_copy.
  - reflexivity.
Qed.

Lemma extend_templates_run h lg x prompt_types : forall templates,
  extend_templates (length h) prompt_types templates (with_copy h lg x) =
  (extend_pure (VDict x) prompt_types templates, with_copy h lg x).
Proof.
  induction prompt_types as [|pt rest IH]; intros templates; [reflexivity|].
  cbn [extend_templates extend_pure]. unfold bind at 1. rewrite read_copy.
  destruct (_handle_prompt_type (VDict x) pt) as [more|e] eqn:Hm.
  - rewrite (bind_lift _ _ more _ eq_refl). cbn [rbind]. apply IH.
  - reflexivity.
Qed.

(** [generate_prompt] works on a copy placed after the existing heap and
    computes [generate_prompt_view]. *)
Lemma generate_prompt_run E self kwargs st l d :
  entry_get "prompts" (agent_data self) = Some (Ref l) ->
  heap st !! l = Some (VDict d) ->
  exists x,
    generate_prompt E self kwargs st =
    (generate_prompt_view E d kwargs, with_copy (heap st) (log st) x).
Proof.
  intros He Hl. unfold generate_prompt, agent_data_getitem. rewrite He.
  unfold bind at 1, read at 1. rewrite Hl. cbn [default].
  rewrite (bind_lift _ _ (VDict d) _ eq_refl).
  unfold bind at 1, alloc at 1. fold (with_copy (heap st) (log st) d).
  unfold bind at 1. rewrite read_copy.
  unfold generate_prompt_view.
  destruct (py_getitem (VDict d) "SystemPrompt") as [sys|e];
    [|exists d; reflexivity].
  rewrite (bind_lift _ _ sys _ eq_refl). cbn [rbind].
  destruct (py_getitem sys "template") as [t|e]; [|exists d; reflexivity].
  rewrite (bind_lift _ _ t _ eq_refl). cbn [rbind].
  destruct (py_getitem sys "vars") as [vs|e]; [|exists d; reflexivity].
  rewrite (bind_lift _ _ vs _ eq_refl). cbn [rbind]. cbv zeta.
  unfold bind at 1. rewrite remove_prompt_if_none_run.
  unfold bind at 1. rewrite remove_prompt_if_none_run.
  unfold bind at 1. rewrite extend_templates_run.
  eexists.
  destruct (extend_pure _ _ _) as [templates|e]; cbn [rbind]; reflexivity.
Qed.

(** C10: [generate_prompt] leaves the agent's stored configuration as it
    was: whatever the keyword arguments (so also when ContextPrompt or
    FeedbackPrompt is dropped for the call) and whether the call returns
    or raises, the mapping [agent_data['prompts']] refers to holds the same
    entries afterwards, because the dropping is done on a copy made for the
    call. *)
Theorem generate_prompt_leaves_prompts_unchanged :
  forall (E : Env) (self : Agent) (kwargs : dict) (st : state) (l : nat)
         (v : value) (r : result (list string)) (st' : state),
    entry_get "prompts" (agent_data self) = Some (Ref l) ->
    heap st !! l = Some v ->
    generate_prompt E self kwargs st = (r, st') ->
    heap st' !! l = Some v.
Proof.
  intros E self kwargs st l v r st' He Hv H.
  assert (Hext : forall x, (heap st ++ [x])%list !! l = Some v).
  { intros x. rewrite lookup_app_l; [exact Hv|]. now apply lookup_lt_Some in Hv. }
  destruct v as [| | | |items|d|h].
  6:{ destruct (generate_prompt_run E self kwargs st l d He Hv) as [x Hrun].
      rewrite Hrun in H. inversion H. unfold with_copy. cbn [heap]. apply Hext. }
  all: unfold generate_prompt, agent_data_getitem in H; rewrite He in H;
    unfold bind at 1, read at 1 in H; rewrite Hv in H;
    cbv beta iota delta [default from_option id] in H;
    unfold bind at 1, lift at 1, py_copy in H; cbv beta iota in H.
  all: try (inversion H; subst; exact Hv).
  unfold bind at 1, alloc at 1 in H. cbv beta iota in H.
  unfold bind at 1, read at 1 in H. cbn [heap] in H.
  rewrite list_lookup_middle in H by reflexivity.
  cbv beta iota delta [default from_option id] in H.
  unfold bind at 1, lift at 1, py_getitem in H. cbv beta iota in H.
  inversion H. cbn [heap]. apply Hext.
Qed.

Lemma generate_prompt_leaves_prompts_unchanged_witness :
  heap (snd (generate_prompt example_env example_agent
               [("task", VStr "Write docs")] example_state)) !! 0%nat
  = heap example_state !! 0%nat.
Proof.
  apply (generate_prompt_leaves_prompts_unchanged example_env example_agent
           [("task", VStr "Write docs")] example_state 0 _
           (fst (generate_prompt example_env example_agent
                   [("task", VStr "Write docs")] example_state))
           _ eq_refl eq_refl).
  now destruct (generate_prompt example_env example_agent
                  [("task", VStr "Write docs")] example_state).
Defined.

Lemma _handle_prompt_type_dict x pt :
  _handle_prompt_type (VDict x) pt = rmapM entry_pair (kept x pt true).
Proof.
  unfold _handle_prompt_type, kept, py_get. cbn [rbind].
  destruct (dict_get pt x) as [e|]; [|reflexivity].
  rewrite andb_true_r. destruct (py_truthy e); [|reflexivity].
  cbn [rmapM]. unfold entry_pair.
  destruct (py_getitem e "template") as [t|]; [|reflexivity]. cbn [rbind].
  destruct (py_getitem e "vars") as [vs|]; reflexivity.
Qed.

Lemma kept_dropped_same kwargs pt key x :
  kept (dropped kwargs pt key x) pt true = kept x pt (supplied key kwargs).
Proof.
  unfold kept, dropped, supplied.
  destruct (is_none (default VNone (dict_get key kwargs))); cbn [negb];
    destruct (dict_get pt x) as [e|] eqn:He;
    cbv beta iota delta [from_option id];
    try destruct (py_truthy e) eqn:Ht; cbn [andb py_truthy]; cbv iota;
    rewrite ?dict_get_pop_eq, ?He, ?Ht; reflexivity.
Qed.

Lemma kept_dropped_other kwargs pt key x pt' keep :
  pt <> pt' ->
  kept (dropped kwargs pt key x) pt' keep = kept x pt' keep.
Proof.
  intros Hne. unfold kept, dropped.
  destruct (py_truthy _ && is_none _); [|reflexivity].
  now rewrite dict_get_pop_ne.
Qed.

Lemma rmapM_app {A B} (f : A -> result B) (l1 l2 : list A) :
  rmapM f (l1 ++ l2)%list =
  let? a := rmapM f l1 in let? b := rmapM f l2 in Ok (a ++ b)%list.
Proof.
  induction l1 as [|x l1 IH]; cbn [rmapM app rbind].
  - now destruct (rmapM f l2).
  - destruct (f x); [|reflexivity]. cbn [rbind]. rewrite IH.
    destruct (rmapM f l1); [|reflexivity]. cbn [rbind].
    now destruct (rmapM f l2).
Qed.

Lemma rmapM_pairs E kwargs es : forall ps,
  rmapM entry_pair es = Ok ps ->
  rmapM (fun tv => _render_template E (fst tv) (snd tv) kwargs) ps =
  rmapM (render_entry E kwargs) es.
Proof.
  induction es as [|e es IH]; intros ps H; cbn [rmapM] in *.
  - now inversion H.
  - unfold render_entry at 1.
    destruct (entry_pair e) as [p|]; [|discriminate]. cbn [rbind] in *.
    destruct (rmapM entry_pair es) as [ps'|]; [|discriminate]. cbn [rbind] in H.
    inversion H. subst. cbn [rmapM]. now rewrite (IH ps' eq_refl).
Qed.

Lemma generate_prompt_view_surviving E d kwargs :
  generate_prompt_view E d kwargs =
  let? system_prompt := py_getitem (VDict d) "SystemPrompt" in
  let? tv := entry_pair system_prompt in
  let? ps := rmapM entry_pair (surviving d kwargs) in
  rmapM (fun tv => _render_template E (fst tv) (snd tv) kwargs) (tv :: ps).
Proof.
  unfold generate_prompt_view, entry_pair at 1.
  destruct (py_getitem (VDict d) "SystemPrompt") as [sys|]; [|reflexivity].
  cbn [rbind].
  destruct (py_getitem sys "template") as [t|]; [|reflexivity]. cbn [rbind].
  destruct (py_getitem sys "vars") as [vs|]; [|reflexivity]. cbn [rbind].
  cbv zeta. cbn [extend_pure]. rewrite !_handle_prompt_type_dict.
  rewrite (kept_dropped_other kwargs "FeedbackPrompt" "feedback" _ "ContextPrompt")
    by discriminate.
  rewrite kept_dropped_same, kept_dropped_same.
  rewrite (kept_dropped_other kwargs "ContextPrompt" "context" _ "FeedbackPrompt")
    by discriminate.
  rewrite !(kept_dropped_other kwargs _ _ _ "InstructionPrompt") by discriminate.
  unfold surviving. rewrite !rmapM_app.
  destruct (rmapM entry_pair (kept d "ContextPrompt" _)) as [pc|]; [|reflexivity].
  cbn [rbind].
  destruct (rmapM entry_pair (kept d "FeedbackPrompt" _)) as [pf|]; [|reflexivity].
  cbn [rbind].
  destruct (rmapM entry_pair (kept d "InstructionPrompt" _)) as [pi|]; [|reflexivity].
  cbn [rbind app]. now rewrite <- !app_assoc.
Qed.

Lemma rmapM_render_entry_pairs E kwargs es rs :
  rmapM (render_entry E kwargs) es = Ok rs ->
  exists ps, rmapM entry_pair es = Ok ps.
Proof.
  revert rs. induction es as [|e es IH]; intros rs H; cbn [rmapM] in *; [eauto|].
  unfold render_entry at 1 in H.
  destruct (entry_pair e) as [p|]; [|discriminate]. cbn [rbind] in *.
  destruct (_render_template E _ _ kwargs); [|discriminate]. cbn [rbind] in H.
  destruct (rmapM (render_entry E kwargs) es) as [rs'|]; [|discriminate].
  destruct (IH rs' eq_refl) as [ps ->]. cbn [rbind]. eauto.
Qed.

(** C3: [generate_prompt] returns exactly when the SystemPrompt and the
    surviving optional prompts render, and its output is then the rendered
    SystemPrompt, first, followed by the rendered ContextPrompt,
    FeedbackPrompt and InstructionPrompt, in that order, of those that
    survive: a ContextPrompt survives only if the persona defines it and
    the caller supplied a [context] (present and not [None]), a
    FeedbackPrompt only if defined and a [feedback] was supplied, an
    InstructionPrompt whenever defined.  With no [context] value nothing
    of the ContextPrompt is in the output, even if the persona defines
    one; likewise for [feedback]. *)
Theorem generate_prompt_system_first_then_surviving :
  forall (E : Env) (self : Agent) (kwargs : dict) (st : state) (l : nat) (d : dict),
    entry_get "prompts" (agent_data self) = Some (Ref l) ->
    heap st !! l = Some (VDict d) ->
    (forall out,
        fst (generate_prompt E self kwargs st) = Ok out <->
        exists system_prompt s rest,
          dict_get "SystemPrompt" d = Some system_prompt /\
          render_entry E kwargs system_prompt = Ok s /\
          rmapM (render_entry E kwargs) (surviving d kwargs) = Ok rest /\
          out = s :: rest) /\
    (supplied "context" kwargs = false ->
     surviving d kwargs =
       (kept d "FeedbackPrompt" (supplied "feedback" kwargs) ++
        kept d "InstructionPrompt" true)%list) /\
    (supplied "feedback" kwargs = false ->
     surviving d kwargs =
       (kept d "ContextPrompt" (supplied "context" kwargs) ++
        kept d "InstructionPrompt" true)%list).
Proof.
  intros E self kwargs st l d He Hl.
  destruct (generate_prompt_run E self kwargs st l d He Hl) as [x Hrun].
  rewrite Hrun. cbn [fst]. rewrite generate_prompt_view_surviving.
  split; [|split].
  - intros out. unfold py_getitem. split.
    + intros H.
      destruct (dict_get "SystemPrompt" d) as [sys|]; [|discriminate].
      cbn [rbind] in H. exists sys.
      destruct (entry_pair sys) as [tv|] eqn:Htv; [|discriminate]. cbn [rbind] in H.
      destruct (rmapM entry_pair (surviving d kwargs)) as [ps|] eqn:Hps;
        [|discriminate].
      cbn [rbind rmapM] in H.
      destruct (_render_template E (fst tv) (snd tv) kwargs) as [s|] eqn:Hs;
        [|discriminate].
      cbn [rbind] in H. rewrite (rmapM_pairs E kwargs _ _ Hps) in H.
      destruct (rmapM (render_entry E kwargs) (surviving d kwargs)) as [rest|];
        [|discriminate].
      inversion H. exists s, rest. repeat split.
      unfold render_entry. now rewrite Htv.
    + intros (sys & s & rest & Hsys & Hs & Hrest & ->).
      rewrite Hsys. cbn [rbind]. unfold render_entry in Hs.
      destruct (entry_pair sys) as [tv|]; [|discriminate]. cbn [rbind] in *.
      destruct (rmapM_render_entry_pairs E kwargs _ _ Hrest) as [ps Hps].
      rewrite Hps. cbn [rbind rmapM]. rewrite Hs. cbn [rbind].
      rewrite (rmapM_pairs E kwargs _ _ Hps), Hrest. reflexivity.
  - intros Hc. unfold surviving, kept at 1. rewrite Hc.
    destruct (dict_get "ContextPrompt" d); [rewrite andb_false_r|]; reflexivity.
  - intros Hf. unfold surviving, kept at 2. rewrite Hf.
    destruct (dict_get "FeedbackPrompt" d); [rewrite andb_false_r|]; reflexivity.
Qed.

Lemma generate_prompt_system_first_then_surviving_witness :
  fst (generate_prompt example_env example_agent
         [("task", VStr "Write docs"); ("context", VNone)] example_state)
  = Ok ["Do: Write docs"].
Proof.
  apply (proj1 (generate_prompt_system_first_then_surviving example_env example_agent
                  [("task", VStr "Write docs"); ("context", VNone)] example_state 0
                  _ eq_refl eq_refl)).
  eexists _, "Do: Write docs", []. repeat split.
Defined.

(** * Further properties *)

(** ** [_load_agent_data] and [Agent.__init__] *)

Lemma py_getitem_dict_ok v k x :
  py_getitem v k = Ok x -> exists d, v = VDict d /\ dict_get k d = Some x.
Proof.
  destruct v; try discriminate. simpl.
  destruct (dict_get k d) eqn:Hg; [|discriminate].
  intros H. inversion H. subst. eauto.
Qed.

(** Everything a successful [_load_agent_data] has read and built. *)
Lemma _load_agent_data_inv E agent_name st ad st' p :
  config_persona E = VDict p ->
  _load_agent_data E agent_name st = (Ok ad, st') ->
  exists a df dapi dparams llm objective prompts_v,
    dict_get agent_name p = Some (VDict a) /\
    dict_get "Defaults" p = Some (VDict df) /\
    dict_get "API" df = Some dapi /\
    dict_get "Params" df = Some dparams /\
    config_get_llm E (default dapi (dict_get "API" a)) agent_name = Ok llm /\
    dict_get "Objective" p = Some objective /\
    dict_get "Prompts" a = Some prompts_v /\
    st' = {| heap := (heap st ++ [prompts_v])%list; log := log st |} /\
    ad = (built_agent_data E agent_name a dparams llm objective (length (heap st))
            ++ imperatives_entry p)%list.
Proof.
  intros Hp H. unfold _load_agent_data in H. rewrite Hp in H.
  apply bind_ok in H as (agent & s & Ha & H). apply lift_ok in Ha as [Ha ->].
  apply bind_ok in H as (defaults & s & Hd & H). apply lift_ok in Hd as [Hd ->].
  apply bind_ok in H as (api & s & Hapi & H). apply lift_ok in Hapi as [Hapi ->].
  apply bind_ok in H as (params & s & Hpar & H). apply lift_ok in Hpar as [Hpar ->].
  apply bind_ok in H as (llm & s & Hllm & H). apply lift_ok in Hllm as [Hllm ->].
  apply bind_ok in H as (objective & s & Hobj & H). apply lift_ok in Hobj as [Hobj ->].
  apply bind_ok in H as (prompts_v & s & Hpv & H). apply lift_ok in Hpv as [Hpv ->].
  apply bind_ok in H as (l & s & Hal & H).
  unfold alloc in Hal. inversion Hal. subst l s. clear Hal.
  apply bind_ok in H as (has & s & Hhas & H). apply lift_ok in Hhas as [Hhas ->].
  apply py_getitem_dict_ok in Ha as (p' & Hp' & Ha). inversion Hp'. subst p'.
  apply py_getitem_dict_ok in Hd as (p' & Hp'' & Hd). inversion Hp''. subst p'.
  apply py_getitem_dict_ok in Hobj as (p' & Hp3 & Hobj). inversion Hp3. subst p'.
  apply py_getitem_dict_ok in Hpv as (a & -> & Hpv).
  unfold py_get_lazy in Hapi, Hpar.
  destruct (py_getitem defaults "API") as [dapi|] eqn:Hda; [|discriminate].
  destruct (py_getitem defaults "Params") as [dparams|] eqn:Hdp; [|discriminate].
  apply py_getitem_dict_ok in Hda as (df & -> & Hda).
  apply py_getitem_dict_ok in Hdp as (df' & Hdf & Hdp). inversion Hdf. subst df'.
  cbn [rbind] in Hapi, Hpar.
  injection Hapi as <-. injection Hpar as <-.
  unfold py_in, dict_mem in Hhas. injection Hhas as <-.
  assert (Hend : st' = {| heap := (heap st ++ [prompts_v])%list; log := log st |} /\
                 ad = (built_agent_data E agent_name a dparams llm objective
                         (length (heap st)) ++ imperatives_entry p)%list).
  { unfold imperatives_entry, built_agent_data.
    destruct (dict_get "HeuristicImperatives" p) as [imp|] eqn:Hi.
    - apply bind_ok in H as (imp' & s & Himp & H). apply lift_ok in Himp as [Himp ->].
      apply ret_ok in H as [-> ->].
      unfold py_getitem in Himp. rewrite Hi in Himp. injection Himp as <-.
      split; reflexivity.
    - apply ret_ok in H as [-> ->]. rewrite app_nil_r. split; reflexivity. }
  destruct Hend as [Hst Had].
  exists a, df, dapi, dparams, llm, objective, prompts_v.
  repeat (split; [assumption|]). assumption.
Qed.

(** X1: when the persona data is a mapping that does not hold the agent
    name, [_load_agent_data], and so the constructor, raises the
    missing-key error for that name, whatever the rest of the persona
    data holds and whatever the LLM configuration would answer. *)
Theorem load_agent_data_unknown_agent :
  forall (E : Env) (agent_name : string) (p : dict) (st : state),
    config_persona E = VDict p ->
    dict_get agent_name p = None ->
    fst (_load_agent_data E agent_name st) = Err (KeyError agent_name) /\
    fst (Agent_init E agent_name st) = Err (KeyError agent_name).
Proof.
  intros E agent_name p st Hp Hn.
  assert (H : _load_agent_data E agent_name st = (Err (KeyError agent_name), st)).
  { unfold _load_agent_data. rewrite Hp. apply bind_lift_err.
    unfold py_getitem. now rewrite Hn. }
  split; [now rewrite H|]. unfold Agent_init.
  now rewrite (bind_err _ _ _ _ _ H).
Qed.

Lemma load_agent_data_unknown_agent_witness :
  fst (Agent_init example_env "Nobody" empty_state) = Err (KeyError "Nobody").
Proof.
  exact (proj2 (load_agent_data_unknown_agent example_env "Nobody" _ empty_state
                  eq_refl eq_refl)).
Defined.

(** X2: in the [agent_data] a successful [_load_agent_data] returns, the
    params are the agent's own [Params] when its persona has them and the
    [Params] of [Defaults] otherwise, and the LLM handle is the one
    [config.get_llm] gives for the agent's own [API], or for the [API] of
    [Defaults] when the agent has none. *)
Theorem load_agent_data_falls_back_to_defaults :
  forall (E : Env) (agent_name : string) (p : dict) (st st' : state)
         (ad : list (string * entry)),
    config_persona E = VDict p ->
    _load_agent_data E agent_name st = (Ok ad, st') ->
    exists a df dapi dparams llm,
      dict_get agent_name p = Some (VDict a) /\
      dict_get "Defaults" p = Some (VDict df) /\
      dict_get "API" df = Some dapi /\
      dict_get "Params" df = Some dparams /\
      entry_get "params" ad =
        Some (Val (match dict_get "Params" a with Some v => v | None => dparams end)) /\
      config_get_llm E
        (match dict_get "API" a with Some v => v | None => dapi end) agent_name
        = Ok llm /\
      entry_get "llm" ad = Some (Val llm).
Proof.
  intros E agent_name p st st' ad Hp H.
  destruct (_load_agent_data_inv E agent_name st ad st' p Hp H)
    as (a & df & dapi & dparams & llm & obj & pv & Ha & Hd & Hda & Hdp & Hllm & _ & _ & _ & ->).
  exists a, df, dapi, dparams, llm.
  repeat (split; [assumption|]).
  split; [reflexivity|]. split; [exact Hllm | reflexivity].
Qed.

Lemma load_agent_data_falls_back_to_defaults_witness :
  exists ad st',
    _load_agent_data example_env "Agent" empty_state = (Ok ad, st') /\
    entry_get "params" ad = Some (Val (VDict [])) /\
    entry_get "llm" ad = Some (Val (VObj 0)).
Proof.
  eexists _, _. split; [vm_compute; reflexivity|].
  match goal with |- entry_get _ ?ad = _ /\ _ =>
    destruct (load_agent_data_falls_back_to_defaults example_env "Agent" _
                empty_state example_state ad eq_refl eq_refl)
      as (a & df & dapi & dparams & llm & Ha & Hd & Hda & Hdp & Hpar & Hllm & Hl)
  end.
  injection Ha as <-. injection Hd as <-. injection Hdp as <-.
  injection Hllm as <-. split; [exact Hpar | exact Hl].
Defined.

(** X3: the defaults are read before it is known whether they are needed:
    when the [Defaults] of the persona data lack [API], [_load_agent_data]
    fails with the missing-key error for ["API"] even for an agent whose
    persona gives its own [API]; with [API] there and [Params] lacking it
    fails for ["Params"] likewise. *)
Theorem load_agent_data_reads_defaults_eagerly :
  forall (E : Env) (agent_name : string) (p a df : dict) (st : state),
    config_persona E = VDict p ->
    dict_get agent_name p = Some (VDict a) ->
    dict_get "Defaults" p = Some (VDict df) ->
    (dict_get "API" df = None ->
     _load_agent_data E agent_name st = (Err (KeyError "API"), st)) /\
    (dict_get "API" df <> None -> dict_get "Params" df = None ->
     _load_agent_data E agent_name st = (Err (KeyError "Params"), st)).
Proof.
  intros E agent_name p a df st Hp Ha Hd.
  assert (Hga : py_getitem (VDict p) agent_name = Ok (VDict a))
    by (unfold py_getitem; now rewrite Ha).
  assert (Hgd : py_getitem (VDict p) "Defaults" = Ok (VDict df))
    by (unfold py_getitem; now rewrite Hd).
  split.
  - intros Hapi. unfold _load_agent_data. rewrite Hp.
    rewrite (bind_lift _ _ _ _ Hga), (bind_lift _ _ _ _ Hgd).
    apply bind_lift_err. unfold py_get_lazy, py_getitem. now rewrite Hapi.
  - intros Hapi Hpar. unfold _load_agent_data. rewrite Hp.
    rewrite (bind_lift _ _ _ _ Hga), (bind_lift _ _ _ _ Hgd).
    destruct (dict_get "API" df) as [dapi|] eqn:Hda; [|congruence].
    rewrite (bind_lift _ _ (match dict_get "API" a with Some y => y | None => dapi end) _).
    2:{ unfold py_get_lazy, py_getitem. now rewrite Hda. }
    apply bind_lift_err. unfold py_get_lazy, py_getitem. now rewrite Hpar.
Qed.

Lemma load_agent_data_reads_defaults_eagerly_witness :
  _load_agent_data no_default_api_env "Agent" empty_state
  = (Err (KeyError "API"), empty_state).
Proof.
  refine (proj1 (load_agent_data_reads_defaults_eagerly no_default_api_env "Agent"
                   _ [("API", VStr "own"); ("Params", VDict [])]
                   [("Params", VDict [])] empty_state
                   eq_refl eq_refl eq_refl) eq_refl).
Defined.

(** What a successful constructor has built. *)
Lemma Agent_init_inv :
  forall (E : Env) (agent_name : string) (p : dict) (st st' : state) (self : Agent),
    config_persona E = VDict p ->
    Agent_init E agent_name st = (Ok self, st') ->
    storage self = storage_utils E /\
    entry_get "name" (agent_data self) = Some (Val (VStr agent_name)) /\
    entry_get "prompts" (agent_data self) = Some (Ref (length (heap st))) /\
    (exists a prompts_v,
        dict_get agent_name p = Some (VDict a) /\
        dict_get "Prompts" a = Some prompts_v /\
        heap st' = (heap st ++ [prompts_v])%list) /\
    log st' = log st /\
    entry_get "heuristic_imperatives" (agent_data self) =
      match dict_get "HeuristicImperatives" p with
      | Some v => Some (Val v)
      | None => None
      end.
Proof.
  intros E agent_name p st st' self Hp H. unfold Agent_init in H.
  apply bind_ok in H as (ad & s & Had & H).
  destruct (_load_agent_data_inv E agent_name st ad s p Hp Had)
    as (a & df & dapi & dparams & llm & obj & pv & Ha & _ & _ & _ & _ & _ & Hpv & -> & ->).
  unfold built_agent_data in H. simpl in H.
  apply bind_ok in H as (h & s & Hh & H). apply get_heap_ok in Hh as [-> ->].
  apply ret_ok in H as [-> ->]. cbn [storage agent_data heap log].
  split; [reflexivity|]. split; [reflexivity|]. split; [reflexivity|].
  split; [exists a, pv; auto|]. split; [reflexivity|].
  unfold built_agent_data, imperatives_entry. simpl.
  now destruct (dict_get "HeuristicImperatives" p).
Qed.

(** X4: the agent a successful constructor returns, when the persona data
    is a mapping: [self.storage] is the storage handle of
    [StorageInterface]; in [agent_data], ["name"] is the agent name,
    ["prompts"] holds the [Prompts] of the agent's persona, and there is a
    ["heuristic_imperatives"] entry exactly when the persona data has
    ["HeuristicImperatives"], with that value. *)
Theorem Agent_init_builds_agent :
  forall (E : Env) (agent_name : string) (p : dict) (st st' : state) (self : Agent),
    config_persona E = VDict p ->
    Agent_init E agent_name st = (Ok self, st') ->
    storage self = storage_utils E /\
    entry_get "name" (agent_data self) = Some (Val (VStr agent_name)) /\
    (exists a prompts_v e,
        dict_get agent_name p = Some (VDict a) /\
        dict_get "Prompts" a = Some prompts_v /\
        entry_get "prompts" (agent_data self) = Some e /\
        entry_value (heap st') e = prompts_v) /\
    entry_get "heuristic_imperatives" (agent_data self) =
      match dict_get "HeuristicImperatives" p with
      | Some v => Some (Val v)
      | None => None
      end.
Proof.
  intros E agent_name p st st' self Hp H.
  destruct (Agent_init_inv E agent_name p st st' self Hp H)
    as (Hs & Hn & Hpr & (a & pv & Ha & Hpv & Hheap) & _ & Hh).
  split; [exact Hs|]. split; [exact Hn|]. split; [|exact Hh].
  exists a, pv, (Ref (length (heap st))).
  split; [exact Ha|]. split; [exact Hpv|]. split; [exact Hpr|].
  cbn [entry_value]. rewrite Hheap.
  now rewrite (list_lookup_middle (heap st) [] pv _ eq_refl).
Qed.

Lemma Agent_init_builds_agent_witness :
  exists self st' e,
    Agent_init example_env "Agent" empty_state = (Ok self, st') /\
    storage self = VObj 1 /\
    entry_get "prompts" (agent_data self) = Some e /\
    entry_value (heap st') e =
      VDict [("SystemPrompt",
              VDict [("template", VStr "Do: {task}"); ("vars", VList [VStr "task"])]);
             ("ContextPrompt",
              VDict [("template", VStr "Context: {context}");
                     ("vars", VList [VStr "context"])])] /\
    entry_get "heuristic_imperatives" (agent_data self) = None.
Proof.
  destruct (Agent_init_builds_agent example_env "Agent" _ empty_state example_state
              example_agent eq_refl eq_refl)
    as (Hs & _ & (a & pv & e & Ha & Hpv & He & Hv) & Hh).
  exists example_agent, example_state, e. split; [reflexivity|].
  split; [exact Hs|]. split; [exact He|]. split; [|exact Hh].
  rewrite Hv. vm_compute in Ha. injection Ha as <-.
  vm_compute in Hpv. now injection Hpv as <-.
Defined.

Lemma generate_prompt_view_ok E d kwargs out :
  generate_prompt_view E d kwargs = Ok out <->
  exists system_prompt s rest,
    dict_get "SystemPrompt" d = Some system_prompt /\
    render_entry E kwargs system_prompt = Ok s /\
    rmapM (render_entry E kwargs) (surviving d kwargs) = Ok rest /\
    out = s :: rest.
Proof.
  rewrite generate_prompt_view_surviving. unfold py_getitem. split.
  - intros H.
    destruct (dict_get "SystemPrompt" d) as [sys|]; [|discriminate].
    cbn [rbind] in H. exists sys.
    destruct (entry_pair sys) as [tv|] eqn:Htv; [|discriminate]. cbn [rbind] in H.
    destruct (rmapM entry_pair (surviving d kwargs)) as [ps|] eqn:Hps;
      [|discriminate].
    cbn [rbind rmapM] in H.
    destruct (_render_template E (fst tv) (snd tv) kwargs) as [s|] eqn:Hs;
      [|discriminate].
    cbn [rbind] in H. rewrite (rmapM_pairs E kwargs _ _ Hps) in H.
    destruct (rmapM (render_entry E kwargs) (surviving d kwargs)) as [rest|];
      [|discriminate].
    injection H as <-. exists s, rest. repeat split.
    unfold render_entry. now rewrite Htv.
  - intros (sys & s & rest & Hsys & Hs & Hrest & ->).
    rewrite Hsys. cbn [rbind]. unfold render_entry in Hs.
    destruct (entry_pair sys) as [tv|]; [|discriminate]. cbn [rbind] in *.
    destruct (rmapM_render_entry_pairs E kwargs _ _ Hrest) as [ps Hps].
    rewrite Hps. cbn [rbind rmapM]. rewrite Hs. cbn [rbind].
    rewrite (rmapM_pairs E kwargs _ _ Hps), Hrest. reflexivity.
Qed.

(** X5: the agent the constructor builds prompts from its persona: when
    the persona's [Prompts] of the agent is the mapping [d],
    [generate_prompt] called right after construction returns exactly when
    the SystemPrompt of [d] and the surviving optional prompts of [d]
    render, and gives these renderings, SystemPrompt first. *)
Theorem constructed_agent_prompts_from_persona :
  forall (E : Env) (agent_name : string) (p a d : dict) (st st' : state)
         (self : Agent) (kwargs : dict) (out : list string),
    config_persona E = VDict p ->
    dict_get agent_name p = Some (VDict a) ->
    dict_get "Prompts" a = Some (VDict d) ->
    Agent_init E agent_name st = (Ok self, st') ->
    (fst (generate_prompt E self kwargs st') = Ok out <->
     exists system_prompt s rest,
       dict_get "SystemPrompt" d = Some system_prompt /\
       render_entry E kwargs system_prompt = Ok s /\
       rmapM (render_entry E kwargs) (surviving d kwargs) = Ok rest /\
       out = s :: rest).
Proof.
  intros E agent_name p a d st st' self kwargs out Hp Ha Hd H.
  destruct (Agent_init_inv E agent_name p st st' self Hp H)
    as (_ & _ & Href & (a' & pv & Ha' & Hpv & Hheap) & _ & _).
  rewrite Ha in Ha'. injection Ha' as <-. rewrite Hd in Hpv. injection Hpv as <-.
  assert (Hcell : heap st' !! length (heap st) = Some (VDict d)).
  { rewrite Hheap. now apply list_lookup_middle. }
  destruct (generate_prompt_run E self kwargs st' _ d Href Hcell) as [x Hrun].
  rewrite Hrun. cbn [fst]. apply generate_prompt_view_ok.
Qed.

Lemma constructed_agent_prompts_from_persona_witness :
  exists self st',
    Agent_init example_env "Agent" empty_state = (Ok self, st') /\
    fst (generate_prompt example_env self [("task", VStr "Write docs")] st')
    = Ok ["Do: Write docs"].
Proof.
  exists example_agent, example_state. split; [reflexivity|].
  apply (proj2 (constructed_agent_prompts_from_persona example_env "Agent" _ _ _
                  empty_state example_state example_agent
                  [("task", VStr "Write docs")] ["Do: Write docs"]
                  eq_refl eq_refl eq_refl eq_refl)).
  eexists _, "Do: Write docs", []. repeat split.
Defined.

(** ** More on [load_and_process_data] *)

Lemma get_or_empty_result k kwargs c :
  py_get (get_or_empty k kwargs) "result" VNone = Ok c ->
  c = result_field k kwargs.
Proof.
  unfold get_or_empty, result_field.
  destruct (dict_get k kwargs) as [v|]; cbv beta iota delta [from_option id].
  - destruct (py_truthy v) eqn:Ht.
    + destruct v; try discriminate. simpl. intros H. now injection H as <-.
    + simpl. intros H. injection H as <-.
      destruct v; try reflexivity. destruct d; [reflexivity | discriminate].
  - simpl. intros H. now injection H as <-.
Qed.

(** The stages after the task leave the state alone. *)
Lemma after_task_state E kwargs (tr c : value) d1 s r s' :
  bind (_get_data "task_result" (ret (Some [("result", tr)])) kwargs d1 true)
    (fun data0 =>
       bind (lift (_set_task_order E (dict_update data0 [("context", c)])))
         (fun data1 => ret data1)) s = (r, s') ->
  s' = s.
Proof.
  rewrite _get_data_inverted. unfold bind, lift, ret.
  destruct (dict_mem "task_result" kwargs);
    destruct (_set_task_order E _); intros H; now inversion H.
Qed.

Lemma load_current_task_state E self st r st' :
  load_current_task E self st = (r, st') ->
  st' = st \/
  exists h, storage self = VObj h /\
            st' = log_append st [MethodCall h "load_collection" tasks_request []].
Proof.
  unfold load_current_task, get_task_list, call_method. fold tasks_request.
  destruct (storage self) as [| | | | | |h];
    try (unfold bind, raise; intros H; inversion H; now left).
  intros H. right. exists h. split; [reflexivity|].
  unfold bind, lift, ret in H.
  destruct (respond E (log st) h "load_collection" tasks_request []) as [p|];
    [|now inversion H].
  destruct (py_getitem p "documents") as [docs|]; [|now inversion H].
  destruct (py_getitem0 docs); now inversion H.
Qed.

(** Whatever the outcome, the state after [load_and_process_data] is the
    one it started in, or the one [load_current_task] left. *)
Lemma load_and_process_data_state E self kwargs st r st' :
  load_and_process_data E self kwargs st = (r, st') ->
  st' = st \/
  (dict_mem "task" kwargs = false /\
   exists r0, load_current_task E self st = (r0, st')).
Proof.
  unfold load_and_process_data. cbv zeta.
  destruct (py_get (get_or_empty "context" kwargs) "result" VNone) as [c|e].
  2:{ rewrite (bind_lift_err _ _ e _ eq_refl). intros H. inversion H. now left. }
  rewrite (bind_lift _ _ c _ eq_refl).
  destruct (py_get (get_or_empty "task_result" kwargs) "result" VNone) as [tr|e].
  2:{ rewrite (bind_lift_err _ _ e _ eq_refl). intros H. inversion H. now left. }
  rewrite (bind_lift _ _ tr _ eq_refl).
  unfold bind at 1, get_heap at 1. cbv beta iota.
  rewrite _get_data_plain.
  destruct (dict_mem "task" kwargs).
  - unfold bind at 1, ret at 1. cbv beta iota.
    intros H. left. exact (after_task_state _ _ _ _ _ _ _ _ H).
  - intros H. right. split; [reflexivity|].
    unfold bind at 1 in H. unfold bind at 1 in H.
    destruct (load_current_task E self st) as [[db|e] s1] eqn:Hl.
    + exists (Ok db).
      destruct db as [d|]; unfold ret at 1 in H;
        apply after_task_state in H; now subst.
    + exists (Err e). now inversion H.
Qed.

(** X6: with the task passed by the caller, [load_and_process_data] never
    touches the storage: whether it returns or raises, the heap and the
    calls log are as before. *)
Theorem load_and_process_data_supplied_task_no_storage :
  forall (E : Env) (self : Agent) (kwargs : dict) (st st' : state) (r : result dict),
    dict_mem "task" kwargs = true ->
    load_and_process_data E self kwargs st = (r, st') ->
    st' = st.
Proof.
  intros E self kwargs st st' r Ht H.
  apply load_and_process_data_state in H as [H|[Hf _]]; [exact H | congruence].
Qed.

Lemma load_and_process_data_supplied_task_no_storage_witness :
  snd (load_and_process_data example_env example_agent
         [("task", VStr "Write docs")] example_state) = example_state.
Proof.
  apply (load_and_process_data_supplied_task_no_storage example_env example_agent
           [("task", VStr "Write docs")] example_state _
           (fst (load_and_process_data example_env example_agent
                   [("task", VStr "Write docs")] example_state)) eq_refl).
  now destruct (load_and_process_data example_env example_agent
                  [("task", VStr "Write docs")] example_state).
Defined.

(** X7: whatever the arguments and whatever the outcome,
    [load_and_process_data] leaves the heap as it was and makes at most one
    call, the [load_collection] of the "Tasks" collection on the agent's
    storage handle, and that only when no task was passed: it never
    writes to the storage and never calls the LLM. *)
Theorem load_and_process_data_calls :
  forall (E : Env) (self : Agent) (kwargs : dict) (st st' : state) (r : result dict),
    load_and_process_data E self kwargs st = (r, st') ->
    heap st' = heap st /\
    (log st' = log st \/
     (dict_mem "task" kwargs = false /\
      exists h, storage self = VObj h /\
        log st' = (log st ++ [MethodCall h "load_collection" tasks_request []])%list)).
Proof.
  intros E self kwargs st st' r H.
  apply load_and_process_data_state in H as [->|[Hf [r0 Hl]]].
  - split; [reflexivity | now left].
  - apply load_current_task_state in Hl as [->|(h & Hs & ->)].
    + split; [reflexivity | now left].
    + split; [reflexivity|]. right. split; [exact Hf|]. exists h. now split.
Qed.

Lemma load_and_process_data_calls_witness :
  heap (snd (load_and_process_data empty_tasks_env example_agent [] example_state))
    = heap example_state /\
  log (snd (load_and_process_data empty_tasks_env example_agent [] example_state))
    = [MethodCall 1 "load_collection" tasks_request []].
Proof.
  destruct (load_and_process_data_calls empty_tasks_env example_agent [] example_state
              (snd (load_and_process_data empty_tasks_env example_agent [] example_state))
              (fst (load_and_process_data empty_tasks_env example_agent [] example_state)))
    as [Hh _].
  - now destruct (load_and_process_data empty_tasks_env example_agent [] example_state).
  - split; [exact Hh | reflexivity].
Defined.

(** X8: the ["context"] of the RunContext is never the mapping the caller
    passed but its [result] field: whenever [load_and_process_data]
    returns, ["context"] is present and holds that field, or [None] when
    no context was passed, when it is empty or when it has no [result]. *)
Theorem load_and_process_data_context :
  forall (E : Env) (self : Agent) (kwargs : dict) (st st' : state) (data : dict),
    load_and_process_data E self kwargs st = (Ok data, st') ->
    dict_get "context" data = Some (result_field "context" kwargs).
Proof.
  intros E self kwargs st st' data H.
  apply load_and_process_data_ok in H as (c & tr & d1 & Hc & _ & _ & Hs).
  rewrite (_set_task_order_get _ _ _ "context" Hs) by discriminate.
  rewrite dict_get_update1, String.eqb_refl.
  now rewrite (get_or_empty_result _ _ _ Hc).
Qed.

Lemma load_and_process_data_context_witness :
  exists data,
    fst (load_and_process_data example_env example_agent
           [("task", VStr "Write docs");
            ("context", VDict [("result", VStr "earlier answer")])] example_state)
    = Ok data /\
    dict_get "context" data = Some (VStr "earlier answer").
Proof.
  eexists. split; [vm_compute; reflexivity|].
  match goal with |- dict_get _ ?d = _ =>
    apply (load_and_process_data_context example_env example_agent
             [("task", VStr "Write docs");
              ("context", VDict [("result", VStr "earlier answer")])]
             example_state example_state d)
  end.
  vm_compute. reflexivity.
Defined.

(** X9: the ["result"] of the RunContext comes from [task_result] exactly
    when the caller passed one: then it is the [result] field of that
    mapping ([None] when empty or without the field), whatever ["result"]
    the caller or the agent data held; with no [task_result] passed,
    ["result"] is left as the overlay of agent data and arguments had it. *)
Theorem load_and_process_data_result :
  forall (E : Env) (self : Agent) (kwargs : dict) (st st' : state) (data : dict),
    load_and_process_data E self kwargs st = (Ok data, st') ->
    (dict_mem "task_result" kwargs = true ->
     dict_get "result" data = Some (result_field "task_result" kwargs)) /\
    (dict_mem "task_result" kwargs = false ->
     dict_get "result" data = dict_get "result" (overlay (heap st) self kwargs)).
Proof.
  intros E self kwargs st st' data H.
  apply load_and_process_data_ok in H as (c & tr & d1 & _ & Htr & H1 & Hs).
  rewrite (_set_task_order_get _ _ _ "result" Hs) by discriminate.
  rewrite dict_get_update1, (eqb_ne "result" "context") by discriminate.
  split; intros Hm; rewrite Hm.
  - rewrite dict_get_update1, String.eqb_refl.
    now rewrite (get_or_empty_result _ _ _ Htr).
  - destruct (dict_mem "task" kwargs).
    + now destruct H1 as [-> _].
    + destruct H1 as (t & -> & _).
      now rewrite dict_get_update1, (eqb_ne "result" "task") by discriminate.
Qed.

Lemma load_and_process_data_result_witness :
  exists data,
    fst (load_and_process_data example_env example_agent
           [("task", VStr "Write docs"); ("result", VStr "stale");
            ("task_result", VDict [("result", VStr "done")])] example_state)
    = Ok data /\
    dict_get "result" data = Some (VStr "done").
Proof.
  eexists. split; [vm_compute; reflexivity|].
  match goal with |- dict_get _ ?d = _ =>
    apply (proj1 (load_and_process_data_result example_env example_agent
                    [("task", VStr "Write docs"); ("result", VStr "stale");
                     ("task_result", VDict [("result", VStr "done")])]
                    example_state example_state d ltac:(vm_compute; reflexivity)))
  end.
  reflexivity.
Defined.

(** X10: with no task passed, the task of the RunContext is the first
    document of the "Tasks" collection, as the storage answers the one
    [load_collection] call; the other documents are not looked at. *)
Theorem load_and_process_data_first_document :
  forall (E : Env) (self : Agent) (kwargs : dict) (st st' : state) (data : dict)
         (h : nat) (p : value) (t : value) (others : list value),
    dict_mem "task" kwargs = false ->
    storage self = VObj h ->
    respond E (log st) h "load_collection" tasks_request [] = Ok p ->
    py_getitem p "documents" = Ok (VList (t :: others)) ->
    load_and_process_data E self kwargs st = (Ok data, st') ->
    dict_get "task" data = Some t /\
    log st' = (log st ++ [MethodCall h "load_collection" tasks_request []])%list.
Proof.
  intros E self kwargs st st' data h p t others Hm Hs Hr Hdocs H.
  apply load_and_process_data_ok in H as (c & tr & d1 & _ & _ & H1 & Hset).
  rewrite Hm in H1. destruct H1 as (t' & -> & Hl).
  unfold load_current_task, get_task_list, call_method in Hl. rewrite Hs in Hl.
  fold tasks_request in Hl. unfold bind, lift, ret in Hl. rewrite Hr, Hdocs in Hl.
  simpl in Hl. injection Hl as <- <-.
  split; [|reflexivity].
  rewrite (_set_task_order_get _ _ _ "task" Hset) by discriminate.
  rewrite dict_get_update1, (eqb_ne "task" "context") by discriminate.
  destruct (dict_mem "task_result" kwargs).
  - rewrite dict_get_update1, (eqb_ne "task" "result") by discriminate.
    now rewrite dict_get_update1, String.eqb_refl.
  - now rewrite dict_get_update1, String.eqb_refl.
Qed.

Lemma load_and_process_data_first_document_witness :
  exists data st',
    load_and_process_data two_tasks_env example_agent [] example_state = (Ok data, st') /\
    dict_get "task" data = Some (VStr "first").
Proof.
  eexists _, _. split; [vm_compute; reflexivity|].
  match goal with |- dict_get _ ?d = _ =>
    refine (proj1 (load_and_process_data_first_document two_tasks_env example_agent []
                     example_state _ d 1 _ (VStr "first") [VStr "second"]
                     eq_refl eq_refl eq_refl eq_refl _))
  end.
  vm_compute. reflexivity.
Defined.

Lemma non_mapping_get k kwargs :
  non_mapping k kwargs = true ->
  py_get (get_or_empty k kwargs) "result" VNone = Err AttributeError.
Proof.
  unfold non_mapping, get_or_empty.
  destruct (dict_get k kwargs) as [v|]; [|discriminate].
  cbv beta iota delta [from_option id]. intros H.
  apply andb_prop in H as [Ht Hv]. rewrite Ht. now destruct v.
Qed.

(** X11: a [context] that is truthy but not a mapping (a text, say) makes
    [load_and_process_data] fail with an attribute error before anything
    is loaded, and so does such a [task_result] when the [context] is
    acceptable; the state is untouched. *)
Theorem load_and_process_data_rejects_non_mapping :
  forall (E : Env) (self : Agent) (kwargs : dict) (st : state),
    (non_mapping "context" kwargs = true ->
     load_and_process_data E self kwargs st = (Err AttributeError, st)) /\
    (mapping_or_empty "context" kwargs = true ->
     non_mapping "task_result" kwargs = true ->
     load_and_process_data E self kwargs st = (Err AttributeError, st)).
Proof.
  intros E self kwargs st. split.
  - intros Hc. unfold load_and_process_data. cbv zeta.
    apply bind_lift_err. now apply non_mapping_get.
  - intros Hc Ht. unfold load_and_process_data. cbv zeta.
    destruct (mapping_or_empty_get _ _ Hc) as [c Hc'].
    rewrite (bind_lift _ _ _ _ Hc').
    apply bind_lift_err. now apply non_mapping_get.
Qed.

Lemma load_and_process_data_rejects_non_mapping_witness :
  load_and_process_data example_env example_agent
    [("context", VStr "some text")] example_state
  = (Err AttributeError, example_state).
Proof.
  apply (proj1 (load_and_process_data_rejects_non_mapping example_env example_agent
                  [("context", VStr "some text")] example_state)).
  reflexivity.
Defined.

(** ** More on [generate_prompt] *)

Lemma quiet_bind {A B} (m : M A) (k : A -> M B) :
  quiet m -> (forall a, quiet (k a)) -> quiet (bind m k).
Proof.
  intros Hm Hk st r st'. unfold bind.
  destruct (m st) as [[a|e] s1] eqn:Hms; intros H.
  - rewrite (Hk a _ _ _ H). exact (Hm _ _ _ Hms).
  - inversion H. subst. exact (Hm _ _ _ Hms).
Qed.

Lemma quiet_lift {A} (r : result A) : quiet (lift r).
Proof. intros st r' st' H. unfold lift in H. now inversion H. Qed.

Lemma quiet_ret {A} (a : A) : quiet (ret a).
Proof. intros st r' st' H. unfold ret in H. now inversion H. Qed.

Lemma quiet_raise {A} (e : exn) : quiet (@raise A e).
Proof. intros st r' st' H. unfold raise in H. now inversion H. Qed.

Lemma quiet_read l : quiet (read l).
Proof. intros st r' st' H. unfold read in H. now inversion H. Qed.

Lemma quiet_write l v : quiet (write l v).
Proof. intros st r' st' H. unfold write in H. now inversion H. Qed.

Lemma quiet_alloc v : quiet (alloc v).
Proof. intros st r' st' H. unfold alloc in H. now inversion H. Qed.

Lemma quiet_remove_prompt_if_none l kwargs pt key :
  quiet (remove_prompt_if_none l kwargs pt key).
Proof.
  unfold remove_prompt_if_none.
  apply quiet_bind; [apply quiet_read | intros p].
  apply quiet_bind; [apply quiet_lift | intros g].
  destruct (py_truthy g && is_none _); [|apply quiet_ret].
  destruct p; try apply quiet_raise. apply quiet_write.
Qed.

Lemma quiet_extend_templates l pts : forall ts, quiet (extend_templates l pts ts).
Proof.
  induction pts as [|pt pts IH]; intros ts; cbn [extend_templates].
  - apply quiet_ret.
  - apply quiet_bind; [apply quiet_read | intros p].
    apply quiet_bind; [apply quiet_lift | intros more]. apply IH.
Qed.

Lemma quiet_generate_prompt E self kwargs : quiet (generate_prompt E self kwargs).
Proof.
  unfold generate_prompt.
  apply quiet_bind.
  { unfold agent_data_getitem.
    destruct (entry_get "prompts" (agent_data self)) as [[v|l]|];
      [apply quiet_ret | apply quiet_read | apply quiet_raise]. }
  intros shared. apply quiet_bind; [apply quiet_lift | intros copied].
  apply quiet_bind; [apply quiet_alloc | intros prompts].
  apply quiet_bind; [apply quiet_read | intros p].
  apply quiet_bind; [apply quiet_lift | intros sys].
  apply quiet_bind; [apply quiet_lift | intros t].
  apply quiet_bind; [apply quiet_lift | intros vs]. cbv zeta.
  apply quiet_bind; [apply quiet_remove_prompt_if_none | intros _].
  apply quiet_bind; [apply quiet_remove_prompt_if_none | intros _].
  apply quiet_bind; [apply quiet_extend_templates | intros ts].
  apply quiet_lift.
Qed.

(** X12: [generate_prompt] leaves the storage and the LLM alone: whatever
    the agent, the arguments and the outcome, it calls none of
    [load_collection], [save_memory], [update_memory], [clear_collection]
    and [generate_text], and draws no identifier; the calls of these
    methods and the draws recorded after it are those recorded before
    it. *)
Theorem generate_prompt_no_storage_or_llm_call :
  forall (E : Env) (self : Agent) (kwargs : dict) (st st' : state)
         (r : result (list string)),
    generate_prompt E self kwargs st = (r, st') ->
    storage_llm_events (log st') = storage_llm_events (log st).
Proof.
  intros E self kwargs st st' r H.
  now rewrite (quiet_generate_prompt E self kwargs _ _ _ H).
Qed.

Lemma generate_prompt_no_storage_or_llm_call_witness :
  storage_llm_events
    (log (snd (generate_prompt example_env example_agent
                 [("task", VStr "Write docs")] example_state)))
  = storage_llm_events (log example_state).
Proof.
  apply (generate_prompt_no_storage_or_llm_call example_env example_agent
           [("task", VStr "Write docs")] example_state _
           (fst (generate_prompt example_env example_agent
                   [("task", VStr "Write docs")] example_state))).
  now destruct (generate_prompt example_env example_agent
                  [("task", VStr "Write docs")] example_state).
Defined.

(** X13: a persona without a SystemPrompt cannot prompt: when the prompt
    mapping has no ["SystemPrompt"] key, [generate_prompt] fails with the
    missing-key error for it, whatever other prompts are defined and
    whatever the arguments. *)
Theorem generate_prompt_needs_system_prompt :
  forall (E : Env) (self : Agent) (kwargs : dict) (st : state) (l : nat) (d : dict),
    entry_get "prompts" (agent_data self) = Some (Ref l) ->
    heap st !! l = Some (VDict d) ->
    dict_get "SystemPrompt" d = None ->
    fst (generate_prompt E self kwargs st) = Err (KeyError "SystemPrompt").
Proof.
  intros E self kwargs st l d He Hl Hn.
  destruct (generate_prompt_run E self kwargs st l d He Hl) as [x ->].
  cbn [fst]. unfold generate_prompt_view, py_getitem. now rewrite Hn.
Qed.

Lemma generate_prompt_needs_system_prompt_witness :
  fst (generate_prompt example_env example_agent [("task", VStr "Write docs")]
         no_system_state)
  = Err (KeyError "SystemPrompt").
Proof.
  apply (generate_prompt_needs_system_prompt example_env example_agent
           [("task", VStr "Write docs")] no_system_state 0
           [("InstructionPrompt", VDict [("template", VStr "Go"); ("vars", VList [])])]
           eq_refl eq_refl eq_refl).
Defined.

(** ** More on [_render_template] *)

(** [format] looks at its keyword arguments through lookups only. *)
Lemma format_ext E kw kw' :
  (forall n, dict_get n kw = dict_get n kw') ->
  forall k t, (String.length t <= k)%nat ->
    format_text E kw t = format_text E kw' t /\
    forall name, format_name E kw t name = format_name E kw' t name.
Proof.
  intros Hext. induction k as [|k IH]; intros t Hlen.
  - destruct t; [split; reflexivity | simpl in Hlen; lia].
  - destruct t as [|c t']; [split; reflexivity|].
    simpl in Hlen. assert (Hlen' : (String.length t' <= k)%nat) by lia.
    destruct (IH t' Hlen') as [IHt IHn]. split.
    + cbn [format_text].
      destruct t' as [|c' t'']; [reflexivity|].
      assert (Hlen'' : (String.length t'' <= k)%nat) by (simpl in Hlen'; lia).
      destruct (IH t'' Hlen'') as [IHt'' _].
      rewrite IHt, IHt'', IHn. reflexivity.
    + intros name. cbn [format_name]. rewrite IHt, IHn.
      unfold format_field. now rewrite Hext.
Qed.

(** X14: the values of undeclared variables never reach a rendered
    prompt: two RunContexts that agree on the variables declared in [vars]
    render every template to the same text, or fail with the same error. *)
Theorem render_template_ignores_undeclared :
  forall (E : Env) (t : string) (vars : list string) (data data' : dict),
    (forall name, declared name vars = true ->
                  dict_get name data = dict_get name data') ->
    _render_template E (VStr t) (var_list vars) data =
    _render_template E (VStr t) (var_list vars) data'.
Proof.
  intros E t vars data data' Hagree.
  unfold _render_template. rewrite !select_items_var_list. cbn [rbind].
  apply (format_ext E _ _) with (k := String.length t); [|lia].
  intros n. rewrite !dict_get_selected.
  destruct (declared n vars) eqn:Hd; [now apply Hagree | reflexivity].
Qed.

Lemma render_template_ignores_undeclared_witness :
  _render_template example_env (VStr "Do: {task} {secret}") (var_list ["task"])
    [("task", VStr "x")] =
  _render_template example_env (VStr "Do: {task} {secret}") (var_list ["task"])
    [("task", VStr "x"); ("secret", VStr "s")].
Proof.
  apply (render_template_ignores_undeclared example_env "Do: {task} {secret}"
           ["task"] [("task", VStr "x")] [("task", VStr "x"); ("secret", VStr "s")]).
  intros name Hd. unfold declared in Hd. cbn [existsb] in Hd.
  rewrite orb_false_r in Hd. apply String.eqb_eq in Hd. subst name. reflexivity.
Defined.

Lemma format_name_unclosed E kw name : forall acc,
  name_chars name = true ->
  format_name E kw name acc = Err ValueError.
Proof.
  induction name as [|c name IH]; intros acc Hn; [reflexivity|].
  simpl in Hn. apply andb_prop in Hn as [Hc Hn]. apply andb_prop in Hc as [Hc Hsp].
  apply andb_prop in Hc as [Ho Hcl]. apply negb_true_iff in Ho, Hcl, Hsp.
  cbn [format_name]. rewrite Ho, Hcl, Hsp. now apply IH.
Qed.

(** X15: braces in a template: after literal text, a doubled brace renders
    as one brace and rendering goes on; a single closing brace at the end,
    a field that is never closed (an opening brace followed by name
    characters up to the end) raise [ValueError]; an empty field [{}] is
    positional and raises [IndexError], since rendering passes keyword
    arguments only. *)
Theorem render_template_braces :
  forall (E : Env) (vars : list string) (data : dict) (lit rest : string),
    plain_text lit = true ->
    _render_template E (VStr (lit ++ "{{" ++ rest)) (var_list vars) data =
      (let? r := _render_template E (VStr rest) (var_list vars) data in
       Ok (lit ++ "{" ++ r)) /\
    _render_template E (VStr (lit ++ "}}" ++ rest)) (var_list vars) data =
      (let? r := _render_template E (VStr rest) (var_list vars) data in
       Ok (lit ++ "}" ++ r)) /\
    _render_template E (VStr (lit ++ "}")) (var_list vars) data = Err ValueError /\
    (forall name, name_chars name = true ->
       _render_template E (VStr (lit ++ "{" ++ name)) (var_list vars) data
       = Err ValueError) /\
    _render_template E (VStr (lit ++ "{}" ++ rest)) (var_list vars) data
      = Err IndexError.
Proof.
  intros E vars data lit rest Hlit.
  unfold _render_template. rewrite select_items_var_list. cbn [rbind].
  set (kw := List.filter _ data).
  repeat split.
  - rewrite (format_text_literal E kw lit _ Hlit).
    change ("{{" ++ rest) with (String "{" (String "{" rest)).
    cbn [format_text]. change (Ascii.eqb "{" "{") with true. cbv iota.
    unfold prepend. now destruct (format_text E kw rest).
  - rewrite (format_text_literal E kw lit _ Hlit).
    change ("}}" ++ rest) with (String "}" (String "}" rest)).
    cbn [format_text]. change (Ascii.eqb "}" "{") with false.
    change (Ascii.eqb "}" "}") with true. cbv iota.
    unfold prepend. now destruct (format_text E kw rest).
  - now rewrite (format_text_literal E kw lit _ Hlit).
  - intros name Hn. rewrite (format_text_literal E kw lit _ Hlit).
    change ("{" ++ name) with (String "{" name).
    destruct name as [|c name]; [reflexivity|].
    cbn [format_text]. change (Ascii.eqb "{" "{") with true. cbv iota.
    assert (Hc : Ascii.eqb c "{" = false).
    { simpl in Hn. destruct (Ascii.eqb c "{"); [discriminate | reflexivity]. }
    rewrite Hc. now rewrite (format_name_unclosed E kw (String c name) EmptyString Hn).
  - now rewrite (format_text_literal E kw lit _ Hlit).
Qed.

Lemma render_template_braces_witness :
  _render_template example_env (VStr "Use {{braces}}") (var_list []) []
    = Ok "Use {braces}" /\
  _render_template example_env (VStr "Do: {task") (var_list ["task"])
    [("task", VStr "x")] = Err ValueError /\
  _render_template example_env (VStr "Do: {}") (var_list ["task"])
    [("task", VStr "x")] = Err IndexError.
Proof.
  split; [|split].
  - exact (proj1 (render_template_braces example_env [] [] "Use " "braces}}" eq_refl)).
  - destruct (render_template_braces example_env ["task"] [("task", VStr "x")]
                "Do: " EmptyString eq_refl) as (_ & _ & _ & H & _).
    exact (H "task" eq_refl).
  - destruct (render_template_braces example_env ["task"] [("task", VStr "x")]
                "Do: " EmptyString eq_refl) as (_ & _ & _ & _ & H).
    exact H.
Defined.

(** ** [run_llm] *)

(** [run_llm] with a handle and params in place. *)
Lemma run_llm_run :
  forall (E : Env) (self : Agent) (prompt : value) (st : state) (h : nat) (kw : dict),
    entry_get "llm" (agent_data self) = Some (Val (VObj h)) ->
    llm_params self kw ->
    run_llm E self prompt st =
    (stripped_answer E (respond E (log st) h "generate_text" [prompt] kw),
     log_append st [MethodCall h "generate_text" [prompt] kw]).
Proof.
  intros E self prompt st h kw Hl Hp.
  unfold run_llm, agent_data_getitem. rewrite Hl.
  unfold bind at 1, ret at 1. cbv beta iota.
  unfold llm_params in Hp.
  assert (Hpar : (match entry_get "params" (agent_data self) with
                  | Some (Val v) => ret v
                  | Some (Ref l) => read l
                  | None => ret (VDict [])
                  end) st = (Ok (VDict kw), st)).
  { destruct (entry_get "params" (agent_data self)) as [[v|l]|].
    - destruct v; try contradiction. now subst.
    - contradiction.
    - now subst. }
  unfold bind at 1. rewrite Hpar.
  unfold bind, call_method, stripped_answer, log_append, ret, raise.
  destruct (respond E (log st) h "generate_text" [prompt] kw) as [v|e];
    [|reflexivity].
  now destruct v.
Qed.

(** X16: [run_llm] makes exactly one call, [generate_text] on the agent's
    LLM handle with the prompt as only positional argument and the agent's
    params as keyword arguments (none when the agent data has no params);
    a text answer is returned stripped, any other answer raises an
    attribute error, and an error of the LLM is passed on as it is, with no
    second attempt. *)
Theorem run_llm_one_call :
  forall (E : Env) (self : Agent) (prompt : value) (st : state) (h : nat) (kw : dict),
    entry_get "llm" (agent_data self) = Some (Val (VObj h)) ->
    llm_params self kw ->
    run_llm E self prompt st =
    (stripped_answer E (respond E (log st) h "generate_text" [prompt] kw),
     log_append st [MethodCall h "generate_text" [prompt] kw]).
Proof. exact run_llm_run. Qed.

Lemma run_llm_one_call_witness :
  run_llm example_env example_agent (VList [VStr "Do: Write docs"]) example_state
  = (Ok (VStr " 42 "),
     log_append example_state
       [MethodCall 0 "generate_text" [VList [VStr "Do: Write docs"]] []]).
Proof.
  apply (run_llm_one_call example_env example_agent (VList [VStr "Do: Write docs"])
           example_state 0 [] eq_refl eq_refl).
Defined.

(** ** Failures of the "Tasks" branch *)

Lemma task_metadata_no_order E td st :
  dict_mem "Description" td = true ->
  dict_get "Order" td = None ->
  task_metadata E (VDict td) st =
  (Err (KeyError "Order"), log_append st [Uuid4]).
Proof.
  intros Hd Ho. unfold task_metadata.
  rewrite (bind_lift _ _ (task_field "Description" (VDict td)) _).
  2:{ unfold py_getitem, task_field, dict_mem in *.
      now destruct (dict_get "Description" td). }
  unfold bind at 1, uuid4 at 1. cbv beta iota.
  apply bind_lift_err. unfold py_getitem. now rewrite Ho.
Qed.

Lemma metadatas_fail E done td rest : forall st,
  forallb is_task_record done = true ->
  dict_mem "Description" td = true ->
  dict_get "Order" td = None ->
  mapM (task_metadata E) (done ++ VDict td :: rest)%list st =
  (Err (KeyError "Order"), log_append st (repeat Uuid4 (length done + 1))).
Proof.
  induction done as [|t done IH]; intros st Hdone Hd Ho.
  - cbn [app mapM]. apply bind_err. now apply task_metadata_no_order.
  - simpl in Hdone. apply andb_prop in Hdone as [Ht Hdone].
    cbn [app mapM]. unfold bind at 1. rewrite (task_metadata_run _ _ _ Ht).
    apply bind_err. rewrite (IH _ Hdone Hd Ho).
    unfold log_append. cbn [heap log length Nat.add repeat].
    now rewrite <- app_assoc.
Qed.

(** X17: [save_tasks] is not atomic: when the list holds a record with a
    ["Description"] but no ["Order"] (the records before it being
    complete), the "Tasks" collection is cleared, one identifier is drawn
    for each record up to that one, and then the missing-key error for
    ["Order"] is raised, with no [save_memory] call: the collection is
    left empty. *)
Theorem save_tasks_missing_order_leaves_cleared :
  forall (E : Env) (self : Agent) (done rest : list value) (td : dict)
         (descs : value) (st : state) (h : nat),
    storage self = VObj h ->
    (exists v, respond E (log st) h "clear_collection" [VStr "Tasks"] [] = Ok v) ->
    forallb is_task_record done = true ->
    dict_mem "Description" td = true ->
    dict_get "Order" td = None ->
    save_tasks E self (VList (done ++ VDict td :: rest)) descs st =
    (Err (KeyError "Order"),
     log_append st (clear_tasks_call h :: repeat Uuid4 (length done + 1))).
Proof.
  intros E self done rest td descs st h Hs [v Hv] Hdone Hd Ho.
  unfold save_tasks. cbv zeta. rewrite Hs.
  unfold bind at 1, call_method at 1. rewrite Hv.
  rewrite (bind_lift _ _ (done ++ VDict td :: rest)%list _ eq_refl).
  apply bind_err. rewrite (metadatas_fail E done td rest _ Hdone Hd Ho).
  unfold log_append, clear_tasks_call. cbn [heap log].
  now rewrite <- app_assoc.
Qed.

Lemma save_tasks_missing_order_leaves_cleared_witness :
  save_tasks example_env example_agent
    (VList [VDict [("Description", VStr "A"); ("Order", VInt 1)];
            VDict [("Description", VStr "B")]])
    (VList [VStr "A"; VStr "B"]) example_state
  = (Err (KeyError "Order"),
     log_append example_state
       [MethodCall 1 "clear_collection" [VStr "Tasks"] []; Uuid4; Uuid4]).
Proof.
  apply (save_tasks_missing_order_leaves_cleared example_env example_agent
           [VDict [("Description", VStr "A"); ("Order", VInt 1)]] []
           [("Description", VStr "B")] (VList [VStr "A"; VStr "B"])
           example_state 1 eq_refl);
    [exists VNone; reflexivity | reflexivity | reflexivity | reflexivity].
Defined.

Lemma descriptions_fail done td rest :
  forallb (has_field "Description") done = true ->
  dict_get "Description" td = None ->
  rmapM (fun task => py_getitem task "Description") (done ++ VDict td :: rest)%list
  = Err (KeyError "Description").
Proof.
  induction done as [|t done IH]; intros Hdone Hd.
  - cbn [app rmapM]. unfold py_getitem. now rewrite Hd.
  - simpl in Hdone. apply andb_prop in Hdone as [Ht Hdone].
    cbn [app rmapM]. destruct t; try discriminate. unfold has_field, dict_mem in Ht.
    unfold py_getitem at 1. destruct (dict_get "Description" d); [|discriminate].
    cbn [rbind]. now rewrite (IH Hdone Hd).
Qed.

(** X18: a task record without a ["Description"] stops [save_parsed_data]
    before the "Tasks" collection is touched: on a parsed-data mapping
    with no ["result"] whose ["Tasks"] list holds such a record (those
    before it having a description), the missing-key error for
    ["Description"] is raised and no call at all has been made. *)
Theorem save_parsed_data_missing_description_touches_nothing :
  forall (E : Env) (self : Agent) (d : dict) (done rest : list value) (td : dict)
         (st : state),
    dict_mem "result" d = false ->
    dict_get "Tasks" d = Some (VList (done ++ VDict td :: rest)) ->
    forallb (has_field "Description") done = true ->
    dict_get "Description" td = None ->
    save_parsed_data E self (VDict d) st = (Err (KeyError "Description"), st).
Proof.
  intros E self d done rest td st Hr Ht Hdone Hd.
  unfold save_parsed_data, save_operations.
  rewrite save_loop_absent by exact Hr.
  cbn [save_loop]. unfold bind at 1, lift at 1, py_in, dict_mem. rewrite Ht.
  cbv beta iota.
  rewrite (bind_lift _ _ (VList (done ++ VDict td :: rest)) _).
  2:{ unfold py_getitem. now rewrite Ht. }
  apply bind_err.
  rewrite (bind_lift _ _ (done ++ VDict td :: rest)%list _ eq_refl).
  apply bind_lift_err. now apply descriptions_fail.
Qed.

Lemma save_parsed_data_missing_description_touches_nothing_witness :
  save_parsed_data example_env example_agent
    (VDict [("Tasks", VList [VDict [("Description", VStr "A"); ("Order", VInt 1)];
                             VDict [("Order", VInt 2)]])]) example_state
  = (Err (KeyError "Description"), example_state).
Proof.
  apply (save_parsed_data_missing_description_touches_nothing example_env example_agent
           [("Tasks", VList [VDict [("Description", VStr "A"); ("Order", VInt 1)];
                             VDict [("Order", VInt 2)]])]
           [VDict [("Description", VStr "A"); ("Order", VInt 1)]] []
           [("Order", VInt 2)] example_state eq_refl eq_refl eq_refl eq_refl).
Defined.

(** ** [load_result_data] *)

(** X19: [load_result_data] makes one [load_collection] call for the
    "Results" collection; when the storage answers with something falsy
    (no documents, [None]) it returns the placeholder list
    ["No results found"] instead of failing, when it answers with a
    non-empty list it returns the first element, and on a non-empty
    mapping with text keys (the shape [load_current_task] reads) indexing
    by 0 raises a missing-key error. *)
Theorem load_result_data_first_or_placeholder :
  forall (E : Env) (self : Agent) (st : state) (h : nat) (rc : value),
    storage self = VObj h ->
    respond E (log st) h "load_collection" results_request [] = Ok rc ->
    snd (load_result_data E self st)
      = log_append st [MethodCall h "load_collection" results_request []] /\
    (py_truthy rc = false ->
     fst (load_result_data E self st) = Ok (VList [VStr "No results found"])) /\
    (forall x xs, rc = VList (x :: xs) ->
     fst (load_result_data E self st) = Ok x) /\
    (forall kv m, rc = VDict (kv :: m) ->
     fst (load_result_data E self st) = Err (KeyError "0")).
Proof.
  intros E self st h rc Hs Hr.
  unfold load_result_data, call_method. rewrite Hs. fold results_request.
  unfold bind. rewrite Hr. unfold log_append.
  split; [|split; [|split]].
  - destruct (py_truthy rc); [unfold lift | unfold ret]; reflexivity.
  - intros Hf. now rewrite Hf.
  - intros x xs ->. reflexivity.
  - intros kv m ->. reflexivity.
Qed.

Lemma load_result_data_first_or_placeholder_witness :
  fst (load_result_data empty_tasks_env example_agent example_state)
  = Err (KeyError "0") /\
  fst (load_result_data example_env example_agent example_state)
  = Ok (VList [VStr "No results found"]).
Proof.
  split.
  - destruct (load_result_data_first_or_placeholder empty_tasks_env example_agent
                example_state 1 _ eq_refl eq_refl) as (_ & _ & _ & H).
    exact (H _ _ eq_refl).
  - destruct (load_result_data_first_or_placeholder example_env example_agent
                example_state 1 _ eq_refl eq_refl) as (_ & H & _).
    exact (H eq_refl).
Defined.

(** ** The calls of [run] *)

Lemma agent_data_getitem_state self k st r st' :
  agent_data_getitem self k st = (r, st') -> st' = st.
Proof.
  unfold agent_data_getitem, ret, read, raise.
  destruct (entry_get k (agent_data self)) as [[v|l]|]; intros H; now inversion H.
Qed.

(** [run_llm] either fails before calling, or makes its one call, and
    what it returns is text. *)
Lemma run_llm_log E self prompt st r st' :
  run_llm E self prompt st = (r, st') ->
  (st' = st /\ forall v, r <> Ok v) \/
  (exists h kw,
      st' = log_append st [MethodCall h "generate_text" [prompt] kw] /\
      forall v, r = Ok v -> exists x, v = VStr x).
Proof.
  unfold run_llm. unfold bind at 1.
  destruct (agent_data_getitem self "llm" st) as [[model|e] s1] eqn:Hm;
    apply agent_data_getitem_state in Hm; subst s1.
  2:{ intros H. inversion H. left. split; [reflexivity | congruence]. }
  unfold bind at 1.
  assert (Hp : forall r1 s1,
             (match entry_get "params" (agent_data self) with
              | Some (Val v) => ret v
              | Some (Ref l) => read l
              | None => ret (VDict [])
              end) st = (r1, s1) -> s1 = st).
  { intros r1 s1. unfold ret, read.
    destruct (entry_get "params" (agent_data self)) as [[v|l]|];
      intros H; now inversion H. }
  destruct (match entry_get "params" (agent_data self) with
            | Some (Val v) => ret v
            | Some (Ref l) => read l
            | None => ret (VDict [])
            end st) as [[params|e] s1] eqn:Hpar.
  2:{ rewrite (Hp _ _ eq_refl). intros H. inversion H. left.
      split; [reflexivity | congruence]. }
  rewrite (Hp _ _ eq_refl). clear Hp Hpar s1.
  destruct model as [| | | | | |h];
    try (unfold raise; intros H; inversion H; left; split; [reflexivity | congruence]).
  destruct params as [| | | | |kw|];
    try (unfold raise; intros H; inversion H; left; split; [reflexivity | congruence]).
  unfold bind, call_method, ret, raise. intros H. right. exists h, kw.
  destruct (respond E (log st) h "generate_text" [prompt] kw) as [v|e].
  - destruct v; inversion H; subst; (split; [reflexivity|]);
      intros v Hv; try discriminate. injection Hv as <-. eauto.
  - inversion H. subst. split; [reflexivity | intros v Hv; discriminate].
Qed.

(** [save_parsed_data] on what the base [parse_output] returns. *)
Lemma save_parsed_data_result_only E self (x : value) st :
  save_parsed_data E self (VDict [("result", x)]) st =
  match storage self with
  | VObj h =>
      (match respond E (log st) h "save_memory"
               [VDict [("data", VList [x]); ("collection_name", VStr "Results")]] []
       with
       | Ok _ => Ok (VDict [("result", x)])
       | Err e => Err e
       end,
       log_append st [save_result_call h x])
  | _ => (Err AttributeError, st)
  end.
Proof.
  unfold save_parsed_data, save_operations. cbn [save_loop].
  unfold bind at 1, lift at 1. cbn [py_in dict_mem dict_get String.eqb Ascii.eqb
                                    Bool.eqb].
  cbv beta iota.
  unfold bind at 1, lift at 1. cbn [py_getitem dict_get String.eqb Ascii.eqb Bool.eqb].
  cbv beta iota.
  unfold bind at 1, save_results, call_method, save_result_call, log_append.
  destruct (storage self) as [| | | | | |h]; try reflexivity.
  destruct (respond E (log st) h "save_memory" _ []) as [v|e]; [|reflexivity].
  reflexivity.
Qed.

Lemma load_and_process_data_log E self kwargs st r st' :
  load_and_process_data E self kwargs st = (r, st') ->
  exists l1, log st' = (log st ++ l1)%list /\
             at_most_one (fun ev => is_load_tasks ev = true) l1.
Proof.
  intros H. apply load_and_process_data_state in H as [->|[_ [r0 Hl]]].
  - exists []. rewrite app_nil_r. split; [reflexivity | now left].
  - apply load_current_task_state in Hl as [->|(h & _ & ->)].
    + exists []. rewrite app_nil_r. split; [reflexivity | now left].
    + eexists. split; [reflexivity|]. right. eexists. split; reflexivity.
Qed.

(** What one [run] appends to the log. *)
Lemma run_log :
  forall (E : Env) (self : Agent) (bot_id : value) (kwargs : dict) (st st' : state)
         (r : result value),
    run E self bot_id kwargs st = (r, st') ->
    exists l1 l2 l3,
      log st' = (log st ++ l1 ++ l2 ++ l3)%list /\
      at_most_one (fun ev => is_load_tasks ev = true) l1 /\
      at_most_one (fun ev => is_generate_text ev = true) l2 /\
      (l3 = [] \/ exists h x, l2 <> [] /\ l3 = [save_result_call h (VStr x)]) /\
      (forall out, r = Ok out ->
         exists h x, l3 = [save_result_call h (VStr x)] /\
                     out = VDict [("result", VStr x)]).
Proof.
  intros E self bot_id kwargs st st' r H.
  unfold run in H. unfold bind at 1 in H.
  destruct (load_and_process_data E self kwargs st) as [[data|e] s1] eqn:H1;
    apply load_and_process_data_log in H1 as (l1 & Hl1 & Hone).
  2:{ inversion H. subst. exists l1, [], []. rewrite !app_nil_r.
      split; [exact Hl1|]. split; [exact Hone|]. split; [now left|].
      split; [now left | intros out Ho; discriminate]. }
  unfold bind at 1 in H.
  destruct (generate_prompt E self data s1) as [[ps|e] s2] eqn:H2;
    apply quiet_generate_prompt in H2.
  2:{ inversion H. subst. exists l1, [], []. rewrite !app_nil_r, H2.
      split; [exact Hl1|]. split; [exact Hone|]. split; [now left|].
      split; [now left | intros out Ho; discriminate]. }
  unfold bind at 1 in H.
  destruct (run_llm E self (VList (map VStr ps)) s2) as [[v|e] s3] eqn:H3;
    apply run_llm_log in H3 as [[-> Hno]|(h & kw & -> & Htext)].
  - exfalso. exact (Hno v eq_refl).
  - destruct (Htext v eq_refl) as [x ->]. cbv zeta in H. unfold parse_output in H.
    unfold bind in H. rewrite save_parsed_data_result_only in H.
    destruct (storage self) as [| | | | | |hs];
      try (inversion H; subst;
           exists l1, [MethodCall h "generate_text" [VList (map VStr ps)] kw], [];
           cbn [log_append log]; rewrite H2, Hl1, app_nil_r;
           split; [now rewrite <- app_assoc|];
           split; [exact Hone|];
           split; [right; eexists; split; reflexivity|];
           split; [now left | intros out Ho; discriminate]).
    exists l1, [MethodCall h "generate_text" [VList (map VStr ps)] kw],
      [save_result_call hs (VStr x)].
    assert (Hlog : log st' =
              (log st ++ l1 ++ [MethodCall h "generate_text" [VList (map VStr ps)] kw]
                 ++ [save_result_call hs (VStr x)])%list).
    { destruct (respond E _ hs "save_memory" _ []); inversion H; subst;
        cbn [log_append log]; rewrite H2, Hl1; now rewrite <- !app_assoc. }
    split; [exact Hlog|]. split; [exact Hone|].
    split; [right; eexists; split; reflexivity|].
    split; [right; exists hs, x; split; [discriminate | reflexivity]|].
    intros out ->. exists hs, x. split; [reflexivity|].
    destruct (respond E _ hs "save_memory" _ []); unfold ret in H; now inversion H.
  - inversion H. subst. exists l1, [], []. rewrite !app_nil_r, H2.
    split; [exact Hl1|]. split; [exact Hone|]. split; [now left|].
    split; [now left | intros out Ho; discriminate].
  - inversion H. subst.
    exists l1, [MethodCall h "generate_text" [VList (map VStr ps)] kw], [].
    cbn [log_append log]. rewrite H2, Hl1, app_nil_r.
    split; [now rewrite <- app_assoc|]. split; [exact Hone|].
    split; [right; eexists; split; reflexivity|].
    split; [now left | intros out Ho; discriminate].
Qed.

Lemma at_most_one_api (P : event -> Prop) l :
  (forall ev, P ev -> is_api_event ev = true) ->
  at_most_one P l -> List.filter is_api_event l = l.
Proof.
  intros HP [->|(ev & -> & Hev)]; [reflexivity|].
  cbn [List.filter]. now rewrite (HP ev Hev).
Qed.

Lemma is_load_tasks_api ev : is_load_tasks ev = true -> is_api_event ev = true.
Proof.
  destruct ev as [h meth args kw|]; [|discriminate]. cbn [is_load_tasks].
  intros H. apply andb_prop in H as [H _]. apply String.eqb_eq in H as ->.
  reflexivity.
Qed.

Lemma is_generate_text_api ev : is_generate_text ev = true -> is_api_event ev = true.
Proof.
  destruct ev as [h meth args kw|]; [|discriminate]. cbn [is_generate_text].
  intros H. apply String.eqb_eq in H as ->. reflexivity.
Qed.

(** X20: the storage and LLM calls of one [run] of the base agent,
    whatever its outcome: at most one load of the "Tasks" collection, then
    at most one [generate_text], then at most one [save_memory] into
    "Results", which only comes after a [generate_text] and saves one
    text; [run] makes no other call of [load_collection], [save_memory],
    [update_memory], [clear_collection] or [generate_text], and draws no
    identifier.  When [run] returns, the save was made and the output is
    the mapping [{"result": text}] of the saved text. *)
Theorem run_calls :
  forall (E : Env) (self : Agent) (bot_id : value) (kwargs : dict) (st st' : state)
         (r : result value),
    run E self bot_id kwargs st = (r, st') ->
    exists l1 l2 l3,
      storage_llm_events (log st') =
        (storage_llm_events (log st) ++ l1 ++ l2 ++ l3)%list /\
      at_most_one (fun ev => is_load_tasks ev = true) l1 /\
      at_most_one (fun ev => is_generate_text ev = true) l2 /\
      (l3 = [] \/ exists h x, l2 <> [] /\ l3 = [save_result_call h (VStr x)]) /\
      (forall out, r = Ok out ->
         exists h x, l3 = [save_result_call h (VStr x)] /\
                     out = VDict [("result", VStr x)]).
Proof.
  intros E self bot_id kwargs st st' r H.
  destruct (run_log E self bot_id kwargs st st' r H)
    as (l1 & l2 & l3 & Hlog & H1 & H2 & H3 & Hout).
  exists l1, l2, l3. split; [|auto].
  rewrite Hlog. unfold storage_llm_events. rewrite !List.filter_app.
  rewrite (at_most_one_api _ l1 is_load_tasks_api H1).
  rewrite (at_most_one_api _ l2 is_generate_text_api H2).
  destruct H3 as [->|(h & x & _ & ->)]; reflexivity.
Qed.

Lemma run_calls_witness :
  exists l1 l2 l3,
    storage_llm_events
      (log (snd (run example_env example_agent VNone [("task", VStr "Write docs")]
                   example_state)))
    = (storage_llm_events (log example_state) ++ l1 ++ l2 ++ l3)%list /\
    exists h x, l3 = [save_result_call h (VStr x)].
Proof.
  assert (Hr : run example_env example_agent VNone [("task", VStr "Write docs")]
                 example_state
               = (fst (run example_env example_agent VNone
                         [("task", VStr "Write docs")] example_state),
                  snd (run example_env example_agent VNone
                         [("task", VStr "Write docs")] example_state)))
    by now destruct (run example_env example_agent VNone
                       [("task", VStr "Write docs")] example_state).
  destruct (run_calls example_env example_agent VNone [("task", VStr "Write docs")]
              example_state _ _ Hr) as (l1 & l2 & l3 & Hlog & _ & _ & _ & Hout).
  exists l1, l2, l3. split; [exact Hlog|].
  destruct (Hout (VDict [("result", VStr " 42 ")])) as (h & x & Hl3 & _);
    [vm_compute; reflexivity | eauto].
Defined.

(** ** [_set_task_order] and the whole [run] *)

(** X21: [_set_task_order] writes at most the key ["next_task_order"]:
    every other key of the mapping it returns holds what it held before;
    and a [this_task_order] that is a list, a mapping or a handle (not
    [None], not a number, not text) makes it fail with a type error. *)
Theorem set_task_order_writes_one_key :
  forall (E : Env) (data : dict),
    (forall data' k,
        _set_task_order E data = Ok data' ->
        k <> "next_task_order" ->
        dict_get k data' = dict_get k data) /\
    (forall v,
        dict_get "this_task_order" data = Some v ->
        match v with VList _ | VDict _ | VObj _ => True | _ => False end ->
        _set_task_order E data = Err TypeError).
Proof.
  intros E data. split.
  - intros data' k H Hk. exact (_set_task_order_get E data data' k H Hk).
  - intros v Hv Hkind. unfold _set_task_order. rewrite Hv.
    destruct v; try contradiction; reflexivity.
Qed.

Lemma set_task_order_writes_one_key_witness :
  _set_task_order example_env [("this_task_order", VList [VInt 1])] = Err TypeError.
Proof.
  exact (proj2 (set_task_order_writes_one_key example_env
                  [("this_task_order", VList [VInt 1])]) _ eq_refl I).
Defined.

(** X22: the stages of [run] compose: when the data loads, the prompts
    render, the LLM handle answers the rendered prompts with a text and
    the save into "Results" returns, [run] returns the mapping
    [{"result": t}] where [t] is the stripped answer, and after the
    loading stage its calls on the LLM and on the storage are two: the
    [generate_text] and then the [save_memory] of [t]. *)
Theorem run_returns_stripped_answer :
  forall (E : Env) (self : Agent) (bot_id : value) (kwargs data : dict)
         (st s1 s2 : state) (ps : list string) (h hs : nat) (kw : dict)
         (answer : string) (saved : value),
    load_and_process_data E self kwargs st = (Ok data, s1) ->
    generate_prompt E self data s1 = (Ok ps, s2) ->
    entry_get "llm" (agent_data self) = Some (Val (VObj h)) ->
    llm_params self kw ->
    respond E (log s2) h "generate_text" [VList (map VStr ps)] kw = Ok (VStr answer) ->
    storage self = VObj hs ->
    respond E (log s2 ++ [MethodCall h "generate_text" [VList (map VStr ps)] kw])%list
      hs "save_memory"
      [VDict [("data", VList [VStr (str_strip E answer)]);
              ("collection_name", VStr "Results")]] [] = Ok saved ->
    run E self bot_id kwargs st =
    (Ok (VDict [("result", VStr (str_strip E answer))]),
     log_append s2
       [MethodCall h "generate_text" [VList (map VStr ps)] kw;
        save_result_call hs (VStr (str_strip E answer))]).
Proof.
  intros E self bot_id kwargs data st s1 s2 ps h hs kw answer saved
         Hload Hgen Hllm Hpar Hans Hs Hsave.
  unfold run. unfold bind at 1. rewrite Hload.
  unfold bind at 1. rewrite Hgen.
  unfold bind at 1. rewrite (run_llm_run E self _ s2 h kw Hllm Hpar), Hans.
  cbn [stripped_answer]. cbv zeta. unfold parse_output.
  unfold bind. rewrite save_parsed_data_result_only, Hs.
  cbn [log_append log]. rewrite Hsave. unfold ret, log_append.
  cbn [heap log]. now rewrite <- app_assoc.
Qed.

Lemma run_returns_stripped_answer_witness :
  run example_env example_agent VNone [("task", VStr "Write docs")] example_state
  = (Ok (VDict [("result", VStr " 42 ")]),
     log_append
       (with_copy (heap example_state) []
          [("SystemPrompt",
            VDict [("template", VStr "Do: {task}"); ("vars", VList [VStr "task"])])])
       [MethodCall 0 "generate_text" [VList [VStr "Do: Write docs"]] [];
        save_result_call 1 (VStr " 42 ")]).
Proof.
  eapply (run_returns_stripped_answer example_env example_agent VNone
            [("task", VStr "Write docs")] _ example_state _ _
            ["Do: Write docs"] 0 1 [] " 42 " VNone);
    [vm_compute; reflexivity | vm_compute; reflexivity | reflexivity | reflexivity
    | reflexivity | reflexivity | reflexivity].
Defined.
